(** * Elasticsearch MCP server: tool handlers of [src/index.ts]

    A shallow embedding of the three tools registered by
    [createElasticsearchMcpServer] ([list_indices], [get_mappings],
    [search]): the module-level cache variables, the zod input schemas, the
    handlers with their [try]/[catch] blocks, and the part of the JavaScript
    run time they rely on (truthiness, [ToString], [JSON.stringify]).

    Conventions of the model
    - A JavaScript number inside a document (a total, an offset, a field of
      a source) is held by the text [Number::toString] gives it, which
      identifies the number; the handlers never compute with such numbers,
      they print them and test them for truth. Times and lengths, with
      which the code does compute, are integers ([Z], [nat]).
    - A string is the UTF-8 encoding of the JavaScript string; [trim]
      removes the white space and line terminators of ECMAScript.
    - An object that is only used as a map (the query body, the request
      envelope, the mapping response) is a [gmap string JValue]; an object
      that is serialized keeps its properties in enumeration order. *)

From Stdlib Require Import ZArith String Ascii List Lia.
From stdpp Require Import base option list strings pretty gmap fin_maps.

Local Open Scope string_scope.
Local Open Scope Z_scope.

(** ** JavaScript values *)

#[local] Set Warnings "-register-all".

Module JS.

(** The values that can flow through the handlers. [JUndefined] and
    [JBigInt] are the two kinds of value in the model that [JSON.stringify]
    does not turn into text: the first is skipped, the second makes it
    throw. [JNum repr] is the number that prints as [repr]: [JNum "42"],
    [JNum "1.5"], [JNum "1e+21"], [JNum "NaN"]; both zeros print as [0]. *)
Inductive JValue : Type :=
| JUndefined
| JNull
| JBool (b : bool)
| JNum (repr : string)
| JBigInt (n : Z)
| JStr (s : string)
| JArr (items : list JValue)
| JObj (props : list (string * JValue)).

(** What a [throw] carries: an instance of [Error] (with its [name] and
    [message]) or any other value. *)
Inductive Thrown : Type :=
| ErrorInstance (name message : string)
| ThrownValue (v : JValue).

(** [ToBoolean]. *)
Definition truthy (v : JValue) : bool :=
  match v with
  | JUndefined | JNull => false
  | JBool b => b
  | JNum repr => negb (String.eqb repr "0" || String.eqb repr "NaN")
  | JBigInt n => negb (n =? 0)
  | JStr s => negb (String.eqb s EmptyString)
  | JArr _ | JObj _ => true
  end.

(** [a || b]. *)
Definition js_or (a b : JValue) : JValue := if truthy a then a else b.

(** [typeof v === "number"]. *)
Definition typeof_number (v : JValue) : bool :=
  match v with JNum _ => true | _ => false end.

(** Own property of an object held in enumeration order. *)
Fixpoint own_prop (props : list (string * JValue)) (k : string) : JValue :=
  match props with
  | [] => JUndefined
  | (k', v) :: rest => if String.eqb k' k then v else own_prop rest k
  end.

(** [v?.k] for a key [k] that no primitive wrapper or array defines: the
    optional chain stops at [undefined] and [null], an object answers with
    its own property, and everything else has no such property. *)
Definition opt_chain (v : JValue) (k : string) : JValue :=
  match v with
  | JObj props => own_prop props k
  | _ => JUndefined
  end.

(** [ToString], as applied by a template literal and by [String(v)]. *)
Fixpoint ToString (v : JValue) : string :=
  match v with
  | JUndefined => "undefined"
  | JNull => "null"
  | JBool b => if b then "true" else "false"
  | JNum repr => repr
  | JBigInt n => pretty n
  | JStr s => s
  | JArr items =>
      String.concat ","
        (List.map (fun x => match x with
                            | JUndefined | JNull => EmptyString
                            | _ => ToString x
                            end) items)
  | JObj _ => "[object Object]"
  end.

(** [Error.prototype.toString]. *)
Definition Error_toString (name message : string) : string :=
  if String.eqb name EmptyString then message
  else if String.eqb message EmptyString then name
  else name ++ ": " ++ message.

(** [`${error}`] for a caught value. *)
Definition thrown_to_string (e : Thrown) : string :=
  match e with
  | ErrorInstance name message => Error_toString name message
  | ThrownValue v => ToString v
  end.

(** [error instanceof Error ? error.message : String(error)]. *)
Definition thrown_message (e : Thrown) : string :=
  match e with
  | ErrorInstance _ message => message
  | ThrownValue v => ToString v
  end.

(** *** [JSON.stringify] *)

Definition dquote : string := String "034"%char EmptyString.
Definition backslash : string := String "092"%char EmptyString.
Definition newline : string := String "010"%char EmptyString.

Definition hex_digit (n : nat) : ascii :=
  nth n (list_ascii_of_string "0123456789abcdef") "0"%char.

(** One code unit of [QuoteJSONString]. *)
Definition quote_char (c : ascii) : string :=
  let n := nat_of_ascii c in
  if (n =? 34)%nat then backslash ++ dquote
  else if (n =? 92)%nat then backslash ++ backslash
  else if (n =? 8)%nat then backslash ++ "b"
  else if (n =? 12)%nat then backslash ++ "f"
  else if (n =? 10)%nat then backslash ++ "n"
  else if (n =? 13)%nat then backslash ++ "r"
  else if (n =? 9)%nat then backslash ++ "t"
  else if (n <? 32)%nat then
    backslash ++ "u00" ++ String (hex_digit (n / 16)) (String (hex_digit (n mod 16)) EmptyString)
  else String c EmptyString.

Fixpoint quote_chars (s : string) : string :=
  match s with
  | EmptyString => EmptyString
  | String c rest => quote_char c ++ quote_chars rest
  end.

Definition QuoteJSONString (s : string) : string :=
  dquote ++ quote_chars s ++ dquote.

(** The text of a non-empty array or object from its serialized parts:
    on one line without a gap, one part per line with it. *)
Definition wrap_partial (l r gap stepback : string) (partial : list string) : string :=
  match partial with
  | [] => l ++ r
  | _ =>
      if String.eqb gap EmptyString then l ++ String.concat "," partial ++ r
      else
        let indent := stepback ++ gap in
        l ++ newline ++ indent
          ++ String.concat ("," ++ newline ++ indent) partial
          ++ newline ++ stepback ++ r
  end.

(** The serialized parts of an array and of an object, given the
    serializer of their elements: the first element that throws ends the
    walk. An [undefined] array element prints as [null]; an [undefined]
    property is left out. *)
Section Parts.
Variable ser : JValue -> Thrown + option string.

Fixpoint serialize_elements (l : list JValue) : Thrown + list string :=
  match l with
  | [] => inr []
  | x :: rest =>
      match ser x with
      | inl e => inl e
      | inr o =>
          match serialize_elements rest with
          | inl e => inl e
          | inr partial => inr (default "null" o :: partial)
          end
      end
  end.

Fixpoint serialize_members (colon : string) (l : list (string * JValue))
  : Thrown + list string :=
  match l with
  | [] => inr []
  | (k, x) :: rest =>
      match ser x with
      | inl e => inl e
      | inr o =>
          match serialize_members colon rest with
          | inl e => inl e
          | inr partial =>
              inr (match o with
                   | Some s => (QuoteJSONString k ++ colon ++ s) :: partial
                   | None => partial
                   end)
          end
      end
  end.
End Parts.

(** [SerializeJSONProperty]: the text of [v], [None] where JavaScript
    yields [undefined], or the [TypeError] thrown at a BigInt. *)
Fixpoint SerializeJSONProperty (gap stepback : string) (v : JValue)
  : Thrown + option string :=
  match v with
  | JUndefined => inr None
  | JNull => inr (Some "null")
  | JBool b => inr (Some (if b then "true" else "false"))
  | JNum repr =>
      inr (Some (if String.eqb repr "NaN" || String.eqb repr "Infinity"
                    || String.eqb repr "-Infinity"
                 then "null" else repr))
  | JBigInt _ =>
      inl (ErrorInstance "TypeError" "Do not know how to serialize a BigInt")
  | JStr s => inr (Some (QuoteJSONString s))
  | JArr items =>
      match serialize_elements (SerializeJSONProperty gap (stepback ++ gap)) items with
      | inl e => inl e
      | inr partial => inr (Some (wrap_partial "[" "]" gap stepback partial))
      end
  | JObj props =>
      let colon := if String.eqb gap EmptyString then ":" else ": " in
      match serialize_members (SerializeJSONProperty gap (stepback ++ gap)) colon props with
      | inl e => inl e
      | inr partial => inr (Some (wrap_partial "{" "}" gap stepback partial))
      end
  end.

(** [JSON.stringify(v)] and [JSON.stringify(v, null, 2)]. *)
Definition JSON_stringify (v : JValue) : Thrown + option string :=
  SerializeJSONProperty EmptyString EmptyString v.

Definition JSON_stringify_2 (v : JValue) : Thrown + option string :=
  SerializeJSONProperty "  " EmptyString v.

(** [String.prototype.trim]. The white space and line terminators of
    ECMAScript, in UTF-8: the bytes 9 to 13 and 32; U+00A0 (C2 A0);
    U+1680 (E1 9A 80); U+2000 to U+200A, U+2028, U+2029 and U+202F
    (E2 80 80..8A, A8, A9, AF); U+205F (E2 81 9F); U+3000 (E3 80 80);
    U+FEFF (EF BB BF). *)
Definition is_space (c : ascii) : bool :=
  let n := nat_of_ascii c in
  ((9 <=? n) && (n <=? 13) || (n =? 32))%nat.

Definition is_space2 (c1 c2 : ascii) : bool :=
  ((nat_of_ascii c1 =? 194) && (nat_of_ascii c2 =? 160))%nat.

Definition is_space3 (c1 c2 c3 : ascii) : bool :=
  let a := nat_of_ascii c1 in
  let b := nat_of_ascii c2 in
  let c := nat_of_ascii c3 in
  ((a =? 225) && (b =? 154) && (c =? 128)
   || (a =? 226) && (b =? 128)
      && ((128 <=? c) && (c <=? 138) || (c =? 168) || (c =? 169) || (c =? 175))
   || (a =? 226) && (b =? 129) && (c =? 159)
   || (a =? 227) && (b =? 128) && (c =? 128)
   || (a =? 239) && (b =? 187) && (c =? 191))%nat.

(** What follows the white-space character a string starts with, if it
    starts with one. *)
Definition skip_space (s : string) : option string :=
  match s with
  | EmptyString => None
  | String c1 r1 =>
      if is_space c1 then Some r1
      else
        match r1 with
        | EmptyString => None
        | String c2 r2 =>
            if is_space2 c1 c2 then Some r2
            else
              match r2 with
              | EmptyString => None
              | String c3 r3 => if is_space3 c1 c2 c3 then Some r3 else None
              end
        end
  end.

Fixpoint trim_start (s : string) : string :=
  match s with
  | EmptyString => EmptyString
  | String c1 r1 =>
      if is_space c1 then trim_start r1
      else
        match r1 with
        | EmptyString => s
        | String c2 r2 =>
            if is_space2 c1 c2 then trim_start r2
            else
              match r2 with
              | EmptyString => s
              | String c3 r3 => if is_space3 c1 c2 c3 then trim_start r3 else s
              end
        end
  end.

(** A string of white space only. *)
Definition only_space (s : string) : bool :=
  String.eqb (trim_start s) EmptyString.

(** The string without the white space it ends with: cut where only
    white space is left. (No white-space character starts at a
    continuation byte, so the cut falls between characters.) *)
Fixpoint trim_end (s : string) : string :=
  match s with
  | EmptyString => EmptyString
  | String c rest => if only_space s then EmptyString else String c (trim_end rest)
  end.

Definition trim (s : string) : string := trim_end (trim_start s).

End JS.

Import JS.

(** ** The Elasticsearch client, as the handlers see it *)

Module ES.

(** A field of a [cat.indices] record: a string, [null], or not there. *)
Inductive CatField : Type :=
| Absent
| Null
| Text (s : string).

Definition cat_value (f : CatField) : JValue :=
  match f with
  | Absent => JUndefined
  | Null => JNull
  | Text s => JStr s
  end.

(** [CatIndicesIndicesRecord]: the four fields the handler reads, and some
    of the many it does not. *)
Record CatIndicesIndicesRecord : Type := {
  health : CatField;
  status : CatField;
  index : CatField;
  uuid : CatField;
  pri : CatField;
  rep : CatField;
  docsCount : CatField;
  storeSize : CatField
}.

(** One search hit and the [hits] envelope of a search response;
    [total] is a number, an object with a [value], or [undefined]. *)
Record SearchHit : Type := { _id : string; _source : JValue }.

Record SearchHitsMetadata : Type := {
  total : JValue;
  hits : list SearchHit
}.

Record SearchResponse : Type := { response_hits : SearchHitsMetadata }.

End ES.

(** ** Tool results *)

Record ContentFragment : Type := {
  type : string;
  text : option string   (* [None]: the property holds [undefined] *)
}.

Record ToolResult : Type := { content : list ContentFragment }.

Definition text_fragment (s : string) : ContentFragment :=
  {| type := "text"; text := Some s |}.

(** ** Module state and effects *)

(** An entry of [cachedIndices]: the object literal built by the
    projection in [list_indices]. *)
Record IndexSummary : Type := {
  index : ES.CatField;
  health : ES.CatField;
  status : ES.CatField;
  docsCount : ES.CatField
}.

Definition summary_value (s : IndexSummary) : JValue :=
  JObj [("index", ES.cat_value (index s));
        ("health", ES.cat_value (health s));
        ("status", ES.cat_value (status s));
        ("docsCount", ES.cat_value (docsCount s))].

(** What a handler does to the outside world, in the order it does it. *)
Inductive Event : Type :=
| CallCatIndices                                   (* esClient.cat.indices *)
| CallGetMapping (index : string)                  (* esClient.indices.getMapping *)
| CallSearch (searchRequest : gmap string JValue)  (* esClient.search *)
| ConsoleError (line : string).                    (* console.error *)

(** The two module-level variables and the trace of effects. *)
Record World : Type := {
  cachedIndices : option (list IndexSummary);
  cacheTimestamp : option Z;
  events : list Event
}.

Definition CACHE_DURATION : Z := 600000.

(** What one invocation finds around it: the clock and the answers of the
    Elasticsearch server, each a response or a rejection. *)
Record Env : Type := {
  Date_now : Z;
  cat_indices : Thrown + list ES.CatIndicesIndicesRecord;
  indices_getMapping : string -> Thrown + gmap string JValue;
  es_search : gmap string JValue -> Thrown + ES.SearchResponse
}.

(** *** The handler monad: state, trace and exceptions *)

Definition M (A : Type) : Type := World -> (Thrown + A) * World.

Definition ret {A} (a : A) : M A := fun w => (inr a, w).

Definition bind {A B} (m : M A) (k : A -> M B) : M B :=
  fun w =>
    match m w with
    | (inl e, w') => (inl e, w')
    | (inr a, w') => k a w'
    end.

Notation "'do' x <-- m ;; k" := (bind m (fun x => k))
  (at level 10, x name, m at level 99, k at level 200).
Notation "'run' m ;; k" := (bind m (fun _ => k))
  (at level 10, m at level 99, k at level 200).

(** A built-in that returns or throws without touching the state. *)
Definition lift {A} (r : Thrown + A) : M A := fun w => (r, w).

(** [try { body } catch (error) { handler }]: what [body] wrote before it
    threw stays written. *)
Definition try_catch {A} (body : M A) (handler : Thrown -> M A) : M A :=
  fun w =>
    match body w with
    | (inl e, w') => handler e w'
    | (inr a, w') => (inr a, w')
    end.

Definition emit (ev : Event) : M unit :=
  fun w =>
    (inr tt, {| cachedIndices := cachedIndices w;
                cacheTimestamp := cacheTimestamp w;
                events := (events w ++ [ev])%list |}).

(** [await] of a client call: the call is recorded, then its answer is
    returned or thrown. *)
Definition await {A} (call : Event) (answer : Thrown + A) : M A :=
  run emit call ;; lift answer.

Definition console_error (line : string) : M unit := emit (ConsoleError line).

Definition get_cachedIndices : M (option (list IndexSummary)) :=
  fun w => (inr (cachedIndices w), w).

Definition get_cacheTimestamp : M (option Z) :=
  fun w => (inr (cacheTimestamp w), w).

Definition set_cachedIndices (v : list IndexSummary) : M unit :=
  fun w =>
    (inr tt, {| cachedIndices := Some v;
                cacheTimestamp := cacheTimestamp w;
                events := events w |}).

Definition set_cacheTimestamp (t : Z) : M unit :=
  fun w =>
    (inr tt, {| cachedIndices := cachedIndices w;
                cacheTimestamp := Some t;
                events := events w |}).

Fixpoint mapM {A B} (f : A -> M B) (l : list A) : M (list B) :=
  match l with
  | [] => ret []
  | x :: rest => do y <-- f x ;; do ys <-- mapM f rest ;; ret (y :: ys)
  end.

(** [`${array.length}`]: a length is an integer below 2^32 and prints as
    its decimal expansion. *)
Definition number_text (n : Z) : string := pretty n.

(** [`${JSON.stringify(...)}`]. *)
Definition template_text (o : option string) : string := default "undefined" o.

(** ** Tool 1: [list_indices] *)

(** [cachedIndices && cacheTimestamp && now - cacheTimestamp < CACHE_DURATION]:
    an array is truthy whenever it is there, a time (an integer, never
    [NaN]) when it is there and is not zero. *)
Definition cache_valid (now : Z) (cached : option (list IndexSummary))
    (timestamp : option Z) : bool :=
  match cached with
  | None => false
  | Some _ =>
      match timestamp with
      | None => false
      | Some ts => negb (ts =? 0) && (now - ts <? CACHE_DURATION)
      end
  end.

(** The callback of [response.map]. *)
Definition project (r : ES.CatIndicesIndicesRecord) : IndexSummary :=
  {| index := ES.index r;
     health := ES.health r;
     status := ES.status r;
     docsCount := ES.docsCount r |}.

(** The two fragments both branches return, from the current value of
    [cachedIndices]. *)
Definition indices_result (suffix : string) : M ToolResult :=
  do cached <-- get_cachedIndices ;;
  let arr := default [] cached in
  do dump <-- lift (JSON_stringify_2 (JArr (List.map summary_value arr))) ;;
  ret {| content :=
           [ text_fragment ("Found " ++ number_text (Z.of_nat (length arr))
                              ++ " indices" ++ suffix);
             {| type := "text"; text := dump |} ] |}.

Definition error_result (message : string) : ToolResult :=
  {| content := [ text_fragment ("Error: " ++ message) ] |}.

(** The [try] block and the [catch] clause of the handler. *)
Definition list_indices_try (env : Env) (now : Z) : M ToolResult :=
  do response <-- await CallCatIndices (cat_indices env) ;;
  run set_cachedIndices (List.map project response) ;;
  run set_cacheTimestamp now ;;
  indices_result EmptyString.

Definition list_indices_catch (error : Thrown) : M ToolResult :=
  run console_error ("Failed to list indices: " ++ thrown_to_string error) ;;
  ret (error_result (thrown_to_string error)).

Definition list_indices (env : Env) : M ToolResult :=
  let now := Date_now env in
  do cached <-- get_cachedIndices ;;
  do timestamp <-- get_cacheTimestamp ;;
  if cache_valid now cached timestamp then
    indices_result " (cached)"
  else
    try_catch (list_indices_try env now) list_indices_catch.

(** ** Tool 2: [get_mappings] *)

Definition get_mappings_try (env : Env) (index : string) : M ToolResult :=
  do mappingResponse <-- await (CallGetMapping index) (indices_getMapping env index) ;;
  let entry := default JUndefined (mappingResponse !! index) in
  do dump <-- lift (JSON_stringify_2 (js_or (opt_chain entry "mappings") (JObj []))) ;;
  ret {| content :=
           [ text_fragment ("Mappings for index: " ++ index);
             text_fragment ("Mappings for index " ++ index ++ ": "
                              ++ template_text dump) ] |}.

Definition get_mappings_catch (error : Thrown) : M ToolResult :=
  run console_error ("Failed to get mappings: " ++ thrown_message error) ;;
  ret (error_result (thrown_message error)).

Definition get_mappings (env : Env) (index : string) : M ToolResult :=
  try_catch (get_mappings_try env index) get_mappings_catch.

(** ** Tool 3: [search] *)

(** [{ fields: { "*": {} } }]. *)
Definition highlight_all : JValue := JObj [("fields", JObj [("*", JObj [])])].

(** [{ index, ...queryBody, highlight: { fields: { "*": {} } } }]: a later
    property of the literal replaces an earlier one of the same name, so
    the spread writes over [index] and [highlight] writes over the spread
    ([∪] keeps the left binding). *)
Definition searchRequest (index : string) (queryBody : gmap string JValue)
  : gmap string JValue :=
  <["highlight" := highlight_all]> (queryBody ∪ {["index" := JStr index]}).

(** [queryBody.from || 0]. *)
Definition requested_from (queryBody : gmap string JValue) : JValue :=
  js_or (default JUndefined (queryBody !! "from")) (JNum "0").

(** [typeof total === "number" ? total : total?.value || 0]. *)
Definition total_value (total : JValue) : JValue :=
  if typeof_number total then total
  else js_or (opt_chain total "value") (JNum "0").

Definition metadata_text (result : ES.SearchResponse) (from : JValue) : string :=
  "Total results: " ++ ToString (total_value (ES.total (ES.response_hits result)))
    ++ ", showing "
    ++ number_text (Z.of_nat (length (ES.hits (ES.response_hits result))))
    ++ " from position " ++ ToString from.

Definition metadataFragment (result : ES.SearchResponse) (from : JValue)
  : ContentFragment :=
  text_fragment (metadata_text result from).

(** The callback of [result.hits.hits.map]. *)
Definition hit_fragment (hit : ES.SearchHit) : M ContentFragment :=
  do dump <-- lift (JSON_stringify_2 (ES._source hit)) ;;
  ret {| type := "text"; text := dump |}.

Definition search_try (env : Env) (index : string)
    (queryBody : gmap string JValue) : M ToolResult :=
  let request := searchRequest index queryBody in
  do result <-- await (CallSearch request) (es_search env request) ;;
  let from := requested_from queryBody in
  do contentFragments <-- mapM hit_fragment (ES.hits (ES.response_hits result)) ;;
  ret {| content := metadataFragment result from :: contentFragments |}.

Definition search_catch (error : Thrown) : M ToolResult :=
  run console_error ("Search failed: " ++ thrown_to_string error) ;;
  ret (error_result (thrown_to_string error)).

Definition search (env : Env) (index : string) (queryBody : gmap string JValue)
  : M ToolResult :=
  try_catch (search_try env index queryBody) search_catch.

(** ** Input schemas and dispatch *)

(** [z.string().trim().min(1, message)]: the handler receives the trimmed
    string. *)
Definition trimmed_min1 (message : string) (s : string) : list string + string :=
  let t := trim s in
  if (String.length t <? 1)%nat then inl [message] else inr t.

(** The [refine] predicate of [queryBody]:
    [try { JSON.parse(JSON.stringify(val)); return true } catch { return false }].
    [JSON.parse] accepts every text [JSON.stringify] produces and its value
    is dropped, so the predicate fails exactly when [JSON.stringify] throws
    (or, never for an object, hands [undefined] to [JSON.parse]). *)
Definition queryBody_refine (val : gmap string JValue) : bool :=
  match JSON_stringify (JObj (map_to_list val)) with
  | inl _ => false
  | inr None => false
  | inr (Some _) => true
  end.

(** [z.record(z.any())], as the MCP server runs it ([safeParseAsync]):
    the record it hands on is a new object with the properties of the
    argument, except a property named [__proto__] and the properties whose
    value is [undefined]. *)
Definition is_undefined (v : JValue) : bool :=
  match v with JUndefined => true | _ => false end.

Definition record_parse (val : gmap string JValue) : gmap string JValue :=
  filter (fun kv => fst kv <> "__proto__" /\ is_undefined (snd kv) = false) val.

(** The [queryBody] schema: the refinement sees the record [z.record]
    hands on. *)
Definition queryBody_schema (val : gmap string JValue)
  : list string + gmap string JValue :=
  let data := record_parse val in
  if queryBody_refine data then inr data
  else inl ["queryBody must be a valid Elasticsearch query DSL object"].

(** A tool invocation: the registered name with its arguments, already of
    the types [z.string()] and [z.record(z.any())] ask for. *)
Inductive ToolCall : Type :=
| Tool_list_indices
| Tool_get_mappings (index : string)
| Tool_search (index : string) (queryBody : gmap string JValue).

(** The schema of each tool: the issues it raises, or the arguments it
    hands to the handler. An object schema reports the issues of all its
    keys. *)
Definition validate (c : ToolCall) : list string + ToolCall :=
  match c with
  | Tool_list_indices => inr Tool_list_indices
  | Tool_get_mappings index =>
      match trimmed_min1 "Index name is required" index with
      | inl issues => inl issues
      | inr index' => inr (Tool_get_mappings index')
      end
  | Tool_search index queryBody =>
      match trimmed_min1 "Exact index name is required." index,
            queryBody_schema queryBody with
      | inr index', inr queryBody' => inr (Tool_search index' queryBody')
      | inl issues, inr _ => inl issues
      | inr _, inl issues => inl issues
      | inl issues1, inl issues2 => inl (issues1 ++ issues2)%list
      end
  end.

Definition handler (env : Env) (args : ToolCall) : M ToolResult :=
  match args with
  | Tool_list_indices => list_indices env
  | Tool_get_mappings index => get_mappings env index
  | Tool_search index queryBody => search env index queryBody
  end.

(** How an invocation ends at the boundary of the tool: the schema turned
    the arguments down and the handler never ran, the handler returned a
    result, or an exception left the handler. How a rejection or an
    escaped exception is reported to the client is the business of the MCP
    server library that holds the schema and the callback, not of the code
    of the tool. *)
Inductive Outcome : Type :=
| Rejected (issues : list string)
| Returned (result : ToolResult)
| Escaped (error : Thrown).

Definition call_tool (env : Env) (c : ToolCall) (w : World) : Outcome * World :=
  match validate c with
  | inl issues => (Rejected issues, w)
  | inr args =>
      match handler env args w with
      | (inr result, w') => (Returned result, w')
      | (inl error, w') => (Escaped error, w')
      end
  end.

(** A run of the server: one environment per invocation, the world
    threaded through. *)
Fixpoint call_tools (calls : list (Env * ToolCall)) (w : World)
  : list Outcome * World :=
  match calls with
  | [] => ([], w)
  | (env, c) :: rest =>
      let '(o, w') := call_tool env c w in
      let '(os, w'') := call_tools rest w' in
      (o :: os, w'')
  end.

(** The calls made to Elasticsearch among the events of a trace. *)
Definition is_backend_call (ev : Event) : bool :=
  match ev with
  | ConsoleError _ => false
  | _ => true
  end.

Definition backend_calls (evs : list Event) : list Event :=
  List.filter is_backend_call evs.

(** The state of a freshly started process. *)
Definition initial_world : World :=
  {| cachedIndices := None; cacheTimestamp := None; events := [] |}.

(** ** Definitions used to state the properties *)

(** The JSON dump of a list of summaries; [stringify_summaries] shows that
    this is what [JSON.stringify(cachedIndices, null, 2)] returns. *)
Definition indices_dump (l : list IndexSummary) : string :=
  match JSON_stringify_2 (JArr (List.map summary_value l)) with
  | inr (Some t) => t
  | _ => EmptyString
  end.

(** The two fragments of a listing. *)
Definition listing (suffix : string) (l : list IndexSummary) : ToolResult :=
  {| content :=
       [ text_fragment ("Found " ++ number_text (Z.of_nat (length l))
                          ++ " indices" ++ suffix);
         text_fragment (indices_dump l) ] |}.

(** The cache is out of date at [now]: no entry, or an entry taken at
    least [CACHE_DURATION] ago. *)
Definition expired_or_absent (now : Z) (w : World) : Prop :=
  match cachedIndices w, cacheTimestamp w with
  | Some _, Some ts => CACHE_DURATION <= now - ts
  | _, _ => True
  end.

(** The [try] block an accepted invocation enters, if it enters one. *)
Definition enters_try (env : Env) (args : ToolCall) (w : World) : bool :=
  match args with
  | Tool_list_indices =>
      negb (cache_valid (Date_now env) (cachedIndices w) (cacheTimestamp w))
  | _ => true
  end.

Definition try_block (env : Env) (args : ToolCall) : M ToolResult :=
  match args with
  | Tool_list_indices => list_indices_try env (Date_now env)
  | Tool_get_mappings index => get_mappings_try env index
  | Tool_search index queryBody => search_try env index queryBody
  end.

(** The exception raised inside the [try] block of the invocation,
    whatever raised it. *)
Definition thrown_inside (env : Env) (args : ToolCall) (w : World) : option Thrown :=
  if enters_try env args w then
    match try_block env args w with
    | (inl e, _) => Some e
    | (inr _, _) => None
    end
  else None.

(** The rejection by which the Elasticsearch call of the invocation ends,
    when it makes one and Elasticsearch rejects it. *)
Definition backend_failure (env : Env) (args : ToolCall) (w : World) : option Thrown :=
  if enters_try env args w then
    match args with
    | Tool_list_indices =>
        match cat_indices env with inl e => Some e | inr _ => None end
    | Tool_get_mappings index =>
        match indices_getMapping env index with inl e => Some e | inr _ => None end
    | Tool_search index queryBody =>
        match es_search env (searchRequest index queryBody) with
        | inl e => Some e
        | inr _ => None
        end
    end
  else None.

(** The text after [Error:] in the fragment a [catch] clause builds. *)
Definition caught_text (args : ToolCall) (e : Thrown) : string :=
  match args with
  | Tool_get_mappings _ => thrown_message e
  | _ => thrown_to_string e
  end.

(** The fragments of the hits, without the monad: [hit_fragment] only
    throws or returns. *)
Fixpoint stringify_hits (hits : list ES.SearchHit)
  : Thrown + list ContentFragment :=
  match hits with
  | [] => inr []
  | hit :: rest =>
      match JSON_stringify_2 (ES._source hit) with
      | inl e => inl e
      | inr dump =>
          match stringify_hits rest with
          | inl e => inl e
          | inr fragments => inr ({| type := "text"; text := dump |} :: fragments)
          end
      end
  end.

(** [mappingResponse[index]?.mappings] is [undefined] or [null]: the
    response has no entry for the index, or an entry without mapping
    data. *)
Definition mappings_absent (mappingResponse : gmap string JValue) (index : string)
  : Prop :=
  let mappings := opt_chain (default JUndefined (mappingResponse !! index)) "mappings" in
  mappings = JUndefined \/ mappings = JNull.

(** ** Sample data *)

Module Sample.

Definition logs : ES.CatIndicesIndicesRecord :=
  {| ES.health := ES.Text "green"; ES.status := ES.Text "open";
     ES.index := ES.Text "logs"; ES.uuid := ES.Text "Kq3";
     ES.pri := ES.Text "1"; ES.rep := ES.Text "0";
     ES.docsCount := ES.Null; ES.storeSize := ES.Absent |}.

Definition logs_summary : IndexSummary :=
  {| index := ES.Text "logs"; health := ES.Text "green";
     status := ES.Text "open"; docsCount := ES.Null |}.

Definition two_hits : ES.SearchResponse :=
  {| ES.response_hits :=
       {| ES.total := JObj [("value", JNum "42"); ("relation", JStr "eq")];
          ES.hits := [ {| ES._id := "1"; ES._source := JObj [("a", JNum "1")] |};
                       {| ES._id := "2"; ES._source := JObj [] |} ] |} |}.

(** A server that answers every call. *)
Definition up (now : Z) : Env :=
  {| Date_now := now;
     cat_indices := inr [logs];
     indices_getMapping := fun _ => inr ∅;
     es_search := fun _ => inr two_hits |}.

Definition refused : Thrown :=
  ErrorInstance "ConnectionError" "connect ECONNREFUSED 127.0.0.1:9200".

(** A server that cannot be reached. *)
Definition down (now : Z) : Env :=
  {| Date_now := now;
     cat_indices := inl refused;
     indices_getMapping := fun _ => inl refused;
     es_search := fun _ => inl refused |}.

(** The world after a refresh at [ts] that found [logs]. *)
Definition cached_at (ts : Z) : World :=
  {| cachedIndices := Some [logs_summary];
     cacheTimestamp := Some ts;
     events := [CallCatIndices] |}.

End Sample.

(** ** Start-up: [ConfigSchema], the client options, [main] *)

(** [ElasticsearchConfig]: what [ConfigSchema] infers. *)
Record ElasticsearchConfig : Type := {
  url : string;
  apiKey : option string;
  username : option string;
  password : option string;
  caCert : option string
}.

(** [ClientOptions], as far as the server sets it. *)
Inductive Auth : Type :=
| ApiKeyAuth (key : string)
| BasicAuth (user pass : string).

Record ClientOptions : Type := {
  node : string;
  auth : option Auth;
  tls : option string   (* [{ ca }], the bytes of the certificate file *)
}.

(** How a process that ran [main] stands: serving on the transport with a
    client built from these options, or gone with an exit status. *)
Inductive Process : Type :=
| Serving (options : ClientOptions)
| Exited (code : Z).

(** An optional string as a JavaScript value. *)
Definition string_value (o : option string) : JValue :=
  match o with
  | Some s => JStr s
  | None => JUndefined
  end.

(** [process.env.NAME || ""]. *)
Definition env_or_empty (penv : gmap string string) (name : string) : string :=
  ToString (js_or (string_value (penv !! name)) (JStr EmptyString)).

(** The module-level [config]. *)
Definition config_of_env (penv : gmap string string) : ElasticsearchConfig :=
  {| url := env_or_empty penv "ES_URL";
     apiKey := Some (env_or_empty penv "ES_API_KEY");
     username := Some (env_or_empty penv "ES_USERNAME");
     password := Some (env_or_empty penv "ES_PASSWORD");
     caCert := Some (env_or_empty penv "ES_CA_CERT") |}.

Section Startup.

(** What the libraries and the operating system decide: whether
    [new URL(s)] accepts a string (zod's [.url()]), the [message] of the
    [ZodError] raised for a list of issues, the content of a file, whether
    [new Client(clientOptions)] accepts the options or throws (it throws,
    for one, on a node without [http:] or [https:]), and whether the
    transport connects. *)
Variable is_url : string -> bool.
Variable zod_message : list string -> string.
Variable readFileSync : string -> Thrown + string.
Variable new_Client : ClientOptions -> Thrown + unit.
Variable connect : ClientOptions -> Thrown + unit.

(** [z.string().trim().min(1, ...).url(...)]: both checks run on the
    trimmed string and each adds its issue. *)
Definition url_issues (trimmed : string) : list string :=
  ((if (String.length trimmed <? 1)%nat
    then ["Elasticsearch URL cannot be empty"] else [])
   ++ (if is_url trimmed then [] else ["Invalid Elasticsearch URL format"]))%list.

(** The predicate of [.refine]:
    [!!data.apiKey || (!!data.username && !!data.password)]. *)
Definition credentials_refine (data : ElasticsearchConfig) : bool :=
  truthy (string_value (apiKey data))
  || (truthy (string_value (username data))
      && truthy (string_value (password data))).

(** [ConfigSchema.safeParse]: the issues of the object and of its
    refinement, or the parsed configuration with the URL trimmed. *)
Definition ConfigSchema_safeParse (config : ElasticsearchConfig)
  : list string + ElasticsearchConfig :=
  let data := {| url := trim (url config);
                 apiKey := apiKey config;
                 username := username config;
                 password := password config;
                 caCert := caCert config |} in
  let issues :=
    (url_issues (url data)
     ++ (if credentials_refine data then []
         else ["Either ES_API_KEY or both ES_USERNAME and ES_PASSWORD must be provided"]))%list in
  match issues with
  | [] => inr data
  | _ => inl issues
  end.

(** [ConfigSchema.parse]: throws the [ZodError] of the issues. *)
Definition ConfigSchema_parse (config : ElasticsearchConfig)
  : Thrown + ElasticsearchConfig :=
  match ConfigSchema_safeParse config with
  | inl issues => inl (ErrorInstance "ZodError" (zod_message issues))
  | inr data => inr data
  end.

(** The authentication block. *)
Definition with_auth (data : ElasticsearchConfig) (clientOptions : ClientOptions)
  : ClientOptions :=
  if truthy (string_value (apiKey data)) then
    {| node := node clientOptions;
       auth := Some (ApiKeyAuth (ToString (string_value (apiKey data))));
       tls := tls clientOptions |}
  else if truthy (string_value (username data))
          && truthy (string_value (password data)) then
    {| node := node clientOptions;
       auth := Some (BasicAuth (ToString (string_value (username data)))
                       (ToString (string_value (password data))));
       tls := tls clientOptions |}
  else clientOptions.

(** The certificate block, with its own [try]/[catch]. *)
Definition with_tls (data : ElasticsearchConfig) (clientOptions : ClientOptions)
  : M ClientOptions :=
  if truthy (string_value (caCert data)) then
    try_catch
      (do ca <-- lift (readFileSync (ToString (string_value (caCert data)))) ;;
       ret {| node := node clientOptions;
              auth := auth clientOptions;
              tls := Some ca |})
      (fun error =>
         run console_error ("Failed to read certificate file: "
                              ++ thrown_message error) ;;
         ret clientOptions)
  else ret clientOptions.

(** [createElasticsearchMcpServer]: the server it returns, with the three
    tools above registered, is told by the options its client was built
    from. *)
Definition createElasticsearchMcpServer (config : ElasticsearchConfig)
  : M ClientOptions :=
  do validatedConfig <-- lift (ConfigSchema_parse config) ;;
  let clientOptions :=
    {| node := url validatedConfig; auth := None; tls := None |} in
  do clientOptions <-- with_tls validatedConfig
                         (with_auth validatedConfig clientOptions) ;;
  run lift (new_Client clientOptions) ;;
  ret clientOptions.

(** [main().catch(...)]: create the server from the environment, connect
    it; any failure is printed and ends the process with status 1. *)
Definition main (penv : gmap string string) : M Process :=
  try_catch
    (do server <-- createElasticsearchMcpServer (config_of_env penv) ;;
     run lift (connect server) ;;
     ret (Serving server))
    (fun error =>
       run console_error ("Server error: " ++ thrown_message error) ;;
       ret (Exited 1)).

End Startup.

(** ** More definitions used to state properties *)

(** The call an accepted invocation sends to Elasticsearch when it enters
    its [try] block. *)
Definition call_of (args : ToolCall) : Event :=
  match args with
  | Tool_list_indices => CallCatIndices
  | Tool_get_mappings index => CallGetMapping index
  | Tool_search index queryBody => CallSearch (searchRequest index queryBody)
  end.

(** The line a [catch] clause writes with [console.error]. *)
Definition failure_line (args : ToolCall) (e : Thrown) : string :=
  match args with
  | Tool_list_indices => "Failed to list indices: " ++ thrown_to_string e
  | Tool_get_mappings _ => "Failed to get mappings: " ++ thrown_message e
  | Tool_search _ _ => "Search failed: " ++ thrown_to_string e
  end.

(** The events of one accepted invocation. *)
Definition invocation_events (env : Env) (args : ToolCall) (w : World) : list Event :=
  if enters_try env args w then
    call_of args
      :: match thrown_inside env args w with
         | Some e => [ConsoleError (failure_line args e)]
         | None => []
         end
  else [].

(** A value holds a BigInt somewhere. *)
Fixpoint has_bigint (v : JValue) : bool :=
  match v with
  | JBigInt _ => true
  | JArr items => existsb has_bigint items
  | JObj props => existsb (fun kv => has_bigint (snd kv)) props
  | _ => false
  end.

(** Both cache variables are set, or neither. *)
Definition cache_paired (w : World) : Prop :=
  is_Some (cachedIndices w) <-> is_Some (cacheTimestamp w).

(** The first argument of a call, trimmed. *)
Definition trim_index (c : ToolCall) : ToolCall :=
  match c with
  | Tool_list_indices => Tool_list_indices
  | Tool_get_mappings index => Tool_get_mappings (trim index)
  | Tool_search index queryBody => Tool_search (trim index) queryBody
  end.

(** A built-in threw. *)
Definition throws {A} (r : Thrown + A) : bool :=
  match r with
  | inl _ => true
  | inr _ => false
  end.

(** More sample data. *)
Module Sample2.

(** Two hits, the second with a BigInt in its source. *)
Definition bigint_hits : ES.SearchResponse :=
  {| ES.response_hits :=
       {| ES.total := JNum "2";
          ES.hits := [ {| ES._id := "1"; ES._source := JObj [("a", JNum "1")] |};
                       {| ES._id := "2"; ES._source := JObj [("n", JBigInt 7)] |} ] |} |}.

Definition logs_mapping : JValue :=
  JObj [("mappings", JObj [("dynamic", JBool true)])].

(** A server with an empty catalog, mappings for [logs], and hits that
    do not serialize. *)
Definition odd (now : Z) : Env :=
  {| Date_now := now;
     cat_indices := inr [];
     indices_getMapping := fun _ => inr {["logs" := logs_mapping]};
     es_search := fun _ => inr bigint_hits |}.

(** One hit that came without [_source], as for a query with
    [_source: false]. *)
Definition sourceless_hit : ES.SearchResponse :=
  {| ES.response_hits :=
       {| ES.total := JObj [("value", JNum "1"); ("relation", JStr "eq")];
          ES.hits := [ {| ES._id := "1"; ES._source := JUndefined |} ] |} |}.

Definition sourceless (now : Z) : Env :=
  {| Date_now := now;
     cat_indices := inr [];
     indices_getMapping := fun _ => inr ∅;
     es_search := fun _ => inr sourceless_hit |}.

(** Stand-ins for what the libraries and the operating system decide at
    start-up. *)
Definition is_http (s : string) : bool := String.prefix "http" s.

Definition join_issues (issues : list string) : string :=
  String.concat "; " issues.

Definition enoent : Thrown :=
  ErrorInstance "Error" "ENOENT: no such file or directory".

Definition one_file (path : string) : Thrown + string :=
  if String.eqb path "/etc/ca.pem" then inr "PEM" else inl enoent.

Definition http_only (options : ClientOptions) : Thrown + unit :=
  if String.prefix "http" (node options) then inr tt
  else inl (ErrorInstance "ConfigurationError" "Invalid protocol").

Definition connects (options : ClientOptions) : Thrown + unit := inr tt.


Definition with_key : ElasticsearchConfig :=
  {| url := " https://localhost:9200 ";
     apiKey := Some "k1";
     username := Some "elastic";
     password := Some EmptyString;
     caCert := Some "/etc/ca.pem" |}.

Definition with_lost_certificate : ElasticsearchConfig :=
  {| url := "https://localhost:9200";
     apiKey := None;
     username := Some "elastic";
     password := Some "changeme";
     caCert := Some "/tmp/gone.pem" |}.

End Sample2.

(** * Properties *)

(** ** The JavaScript run time on examples *)

Example stringify_nested :
  JSON_stringify_2
    (JObj [("a", JNum "1"); ("b", JArr [JStr "x"; JUndefined]); ("c", JUndefined);
           ("d", JObj [])])
  = inr (Some ("{" ++ newline ++ "  " ++ dquote ++ "a" ++ dquote ++ ": 1,"
               ++ newline ++ "  " ++ dquote ++ "b" ++ dquote ++ ": ["
               ++ newline ++ "    " ++ dquote ++ "x" ++ dquote ++ ","
               ++ newline ++ "    null"
               ++ newline ++ "  ],"
               ++ newline ++ "  " ++ dquote ++ "d" ++ dquote ++ ": {}"
               ++ newline ++ "}")).
Proof. vm_compute. reflexivity. Qed.

Example trim_spaces : trim "  logs-2024 	" = "logs-2024".
Proof. reflexivity. Qed.

(** A no-break space (C2 A0) in front, an em space (E2 80 83) and a line
    separator (E2 80 A8) behind; the e with acute accent inside (C3 A9)
    stays. *)
Example trim_unicode_spaces :
  trim (String "194" (String "160" ("caf" ++ String "195" (String "169"
          (String "226" (String "128" (String "131"
             (String "226" (String "128" (String "168" EmptyString))))))))))
  = "caf" ++ String "195" (String "169" EmptyString).
Proof. reflexivity. Qed.

(** The projection keeps four fields of a catalog record and drops the
    others. *)
Example project_keeps_four_fields : project Sample.logs = Sample.logs_summary.
Proof. reflexivity. Qed.

(** ** The handler monad *)

Lemma await_run {A B} (call : Event) (answer : Thrown + A) (k : A -> M B) w :
  bind (await call answer) k w
  = let w1 := {| cachedIndices := cachedIndices w;
                 cacheTimestamp := cacheTimestamp w;
                 events := (events w ++ [call])%list |} in
    match answer with
    | inl e => (inl e, w1)
    | inr a => k a w1
    end.
Proof. unfold await, bind, emit, lift. cbn. destruct answer; reflexivity. Qed.

(** A [try]/[catch] whose handler always returns lets nothing out. *)
Lemma try_catch_returns {A} (body : M A) (h : Thrown -> M A) (w : World) :
  (forall e w1, exists a w2, h e w1 = (inr a, w2)) ->
  exists a w', try_catch body h w = (inr a, w').
Proof.
  intros Hh. unfold try_catch.
  destruct (body w) as [[e | a] w1]; [apply Hh | eauto].
Qed.

(** ** [JSON.stringify] on the cached summaries *)

Lemma serialize_cat_value gap stepback (f : ES.CatField) :
  exists o, SerializeJSONProperty gap stepback (ES.cat_value f) = inr o.
Proof. destruct f; cbn; eauto. Qed.

Lemma serialize_summary gap stepback (s : IndexSummary) :
  exists t, SerializeJSONProperty gap stepback (summary_value s) = inr (Some t).
Proof.
  unfold summary_value. cbn [SerializeJSONProperty serialize_members].
  destruct (serialize_cat_value gap (stepback ++ gap) (index s)) as [o1 ->].
  destruct (serialize_cat_value gap (stepback ++ gap) (health s)) as [o2 ->].
  destruct (serialize_cat_value gap (stepback ++ gap) (status s)) as [o3 ->].
  destruct (serialize_cat_value gap (stepback ++ gap) (docsCount s)) as [o4 ->].
  eauto.
Qed.

Lemma serialize_summaries gap stepback (l : list IndexSummary) :
  exists partial,
    serialize_elements (SerializeJSONProperty gap stepback)
      (List.map summary_value l) = inr partial.
Proof.
  induction l as [| s l [partial IH]]; cbn [List.map serialize_elements].
  - eauto.
  - destruct (serialize_summary gap stepback s) as [t ->]. rewrite IH. eauto.
Qed.

Lemma stringify_summaries (l : list IndexSummary) :
  JSON_stringify_2 (JArr (List.map summary_value l)) = inr (Some (indices_dump l)).
Proof.
  unfold indices_dump, JSON_stringify_2. cbn [SerializeJSONProperty].
  destruct (serialize_summaries "  " (EmptyString ++ "  ") l) as [partial ->].
  reflexivity.
Qed.

Lemma indices_result_run (suffix : string) (w : World) (l : list IndexSummary) :
  cachedIndices w = Some l ->
  indices_result suffix w = (inr (listing suffix l), w).
Proof.
  intros Hc. unfold indices_result, bind, get_cachedIndices.
  rewrite Hc. cbn [default]. unfold lift. rewrite stringify_summaries.
  reflexivity.
Qed.

(** ** The cache of [list_indices] *)

Lemma expired_not_valid now w :
  expired_or_absent now w ->
  cache_valid now (cachedIndices w) (cacheTimestamp w) = false.
Proof.
  unfold expired_or_absent, cache_valid.
  destruct (cachedIndices w); [| reflexivity].
  destruct (cacheTimestamp w) as [ts |]; [| reflexivity].
  intros H. apply andb_false_iff. right. apply Z.ltb_ge. exact H.
Qed.

Lemma list_indices_hit env w l ts :
  cachedIndices w = Some l -> cacheTimestamp w = Some ts ->
  ts <> 0 -> Date_now env - ts < CACHE_DURATION ->
  list_indices env w = (inr (listing " (cached)" l), w).
Proof.
  intros Hc Ht Hz Hlt. unfold list_indices, bind, get_cachedIndices, get_cacheTimestamp.
  rewrite Hc, Ht. cbn [cache_valid truthy].
  destruct (Z.eqb_spec ts 0) as [-> | _]; [contradiction |].
  destruct (Z.ltb_spec (Date_now env - ts) CACHE_DURATION) as [_ | Hge]; [| lia].
  cbn [negb andb]. apply indices_result_run, Hc.
Qed.

Lemma list_indices_refresh env w response :
  cache_valid (Date_now env) (cachedIndices w) (cacheTimestamp w) = false ->
  cat_indices env = inr response ->
  list_indices env w
  = (inr (listing EmptyString (List.map project response)),
     {| cachedIndices := Some (List.map project response);
        cacheTimestamp := Some (Date_now env);
        events := (events w ++ [CallCatIndices])%list |}).
Proof.
  intros Hv Hcat. unfold list_indices.
  unfold bind at 1 2, get_cachedIndices, get_cacheTimestamp. rewrite Hv.
  unfold try_catch, list_indices_try. rewrite await_run, Hcat. cbv zeta.
  unfold bind, set_cachedIndices, set_cacheTimestamp. cbn [cachedIndices cacheTimestamp events].
  rewrite (indices_result_run _ _ (List.map project response)) by reflexivity.
  reflexivity.
Qed.

Lemma list_indices_failure env w e :
  cache_valid (Date_now env) (cachedIndices w) (cacheTimestamp w) = false ->
  cat_indices env = inl e ->
  list_indices env w
  = (inr (error_result (thrown_to_string e)),
     {| cachedIndices := cachedIndices w;
        cacheTimestamp := cacheTimestamp w;
        events := (events w ++ [CallCatIndices;
                     ConsoleError ("Failed to list indices: " ++ thrown_to_string e)])%list |}).
Proof.
  intros Hv Hcat. unfold list_indices.
  unfold bind at 1 2, get_cachedIndices, get_cacheTimestamp. rewrite Hv.
  unfold try_catch, list_indices_try, list_indices_catch.
  rewrite await_run, Hcat. cbv zeta.
  unfold bind, console_error, emit, ret. cbn [cachedIndices cacheTimestamp events].
  rewrite <- app_assoc. reflexivity.
Qed.

(** ** Failures inside the handlers *)

Lemma list_indices_catch_run e w :
  list_indices_catch e w
  = (inr (error_result (thrown_to_string e)),
     {| cachedIndices := cachedIndices w;
        cacheTimestamp := cacheTimestamp w;
        events := (events w ++ [ConsoleError ("Failed to list indices: "
                                                ++ thrown_to_string e)])%list |}).
Proof. reflexivity. Qed.

Lemma get_mappings_catch_run e w :
  get_mappings_catch e w
  = (inr (error_result (thrown_message e)),
     {| cachedIndices := cachedIndices w;
        cacheTimestamp := cacheTimestamp w;
        events := (events w ++ [ConsoleError ("Failed to get mappings: "
                                                ++ thrown_message e)])%list |}).
Proof. reflexivity. Qed.

Lemma search_catch_run e w :
  search_catch e w
  = (inr (error_result (thrown_to_string e)),
     {| cachedIndices := cachedIndices w;
        cacheTimestamp := cacheTimestamp w;
        events := (events w ++ [ConsoleError ("Search failed: "
                                                ++ thrown_to_string e)])%list |}).
Proof. reflexivity. Qed.

Lemma cache_valid_some now cached timestamp :
  cache_valid now cached timestamp = true -> exists l, cached = Some l.
Proof. destruct cached; [eauto | discriminate]. Qed.

(** No handler lets an exception out. *)
Lemma handler_returns env args w :
  exists r w', handler env args w = (inr r, w').
Proof.
  destruct args as [| index | index queryBody]; cbn [handler].
  - unfold list_indices. unfold bind at 1 2, get_cachedIndices, get_cacheTimestamp.
    destruct (cache_valid _ _ _) eqn:Hv.
    + destruct (cache_valid_some _ _ _ Hv) as [l Hl].
      rewrite (indices_result_run _ _ l Hl). eauto.
    + apply try_catch_returns. intros e w1. rewrite list_indices_catch_run. eauto.
  - apply try_catch_returns. intros e w1. rewrite get_mappings_catch_run. eauto.
  - apply try_catch_returns. intros e w1. rewrite search_catch_run. eauto.
Qed.

Lemma backend_failure_thrown env args w e :
  backend_failure env args w = Some e -> thrown_inside env args w = Some e.
Proof.
  unfold backend_failure, thrown_inside.
  destruct (enters_try env args w); [| discriminate].
  destruct args as [| index | index queryBody]; cbn [try_block].
  - unfold list_indices_try. rewrite await_run.
    destruct (cat_indices env); [trivial | discriminate].
  - unfold get_mappings_try. rewrite await_run.
    destruct (indices_getMapping env index); [trivial | discriminate].
  - unfold search_try. cbv zeta. rewrite await_run.
    destruct (es_search env _); [trivial | discriminate].
Qed.

Lemma thrown_inside_caught env args w e :
  thrown_inside env args w = Some e ->
  exists w', handler env args w = (inr (error_result (caught_text args e)), w').
Proof.
  unfold thrown_inside. destruct (enters_try env args w) eqn:Hin; [| discriminate].
  destruct (try_block env args w) as [[e' | r] w1] eqn:Hbody; [| discriminate].
  intros [= ->].
  destruct args as [| index | index queryBody]; cbn [handler try_block caught_text] in *.
  - unfold list_indices. unfold bind at 1 2, get_cachedIndices, get_cacheTimestamp.
    apply negb_true_iff in Hin. rewrite Hin.
    unfold try_catch. rewrite Hbody, list_indices_catch_run. eauto.
  - unfold get_mappings, try_catch. rewrite Hbody, get_mappings_catch_run. eauto.
  - unfold search, try_catch. rewrite Hbody, search_catch_run. eauto.
Qed.

Example first_listing_fetches :
  call_tool (Sample.up 1700000000000) Tool_list_indices initial_world
  = (Returned (listing EmptyString [Sample.logs_summary]),
     Sample.cached_at 1700000000000).
Proof. vm_compute. reflexivity. Qed.

Example second_listing_is_cached :
  call_tool (Sample.down 1700000001000) Tool_list_indices
    (Sample.cached_at 1700000000000)
  = (Returned (listing " (cached)" [Sample.logs_summary]),
     Sample.cached_at 1700000000000).
Proof. vm_compute. reflexivity. Qed.

(** ** Claims about [list_indices] *)

(** Within the window after a refresh at a time other than 0, a run of
    [list_indices] calls is answered from the cache: every call returns the
    cached listing and the world (cache and trace) stays as it was. *)
Lemma list_indices_window (envs : list Env) w l ts :
  cachedIndices w = Some l -> cacheTimestamp w = Some ts -> ts <> 0 ->
  Forall (fun env => Date_now env - ts < CACHE_DURATION) envs ->
  call_tools (List.map (fun env => (env, Tool_list_indices)) envs) w
  = (List.map (fun _ => Returned (listing " (cached)" l)) envs, w).
Proof.
  intros Hc Ht Hz Hall. induction Hall as [| env envs Hlt _ IH]; [reflexivity |].
  cbn [List.map call_tools]. unfold call_tool. cbn [validate handler].
  rewrite (list_indices_hit env w l ts Hc Ht Hz Hlt), IH. reflexivity.
Qed.

(** A refresh at a time other than 0 followed by calls inside the window:
    the first call fetches and is not marked, every later one returns the
    sequence the first one cached, marked [(cached)], and the trace shows
    the single fetch of the first call. *)
Lemma refresh_then_cached_run env (envs : list Env) w response :
  expired_or_absent (Date_now env) w ->
  cat_indices env = inr response ->
  Date_now env <> 0 ->
  Forall (fun env' => Date_now env' - Date_now env < CACHE_DURATION) envs ->
  call_tools ((env, Tool_list_indices)
                :: List.map (fun env' => (env', Tool_list_indices)) envs) w
  = (Returned (listing EmptyString (List.map project response))
       :: List.map (fun _ => Returned (listing " (cached)" (List.map project response)))
            envs,
     {| cachedIndices := Some (List.map project response);
        cacheTimestamp := Some (Date_now env);
        events := (events w ++ [CallCatIndices])%list |}).
Proof.
  intros Hexp Hcat Hz Hall. cbn [call_tools]. unfold call_tool at 1.
  cbn [validate handler].
  rewrite (list_indices_refresh env w response (expired_not_valid _ _ Hexp) Hcat).
  rewrite (list_indices_window envs _ (List.map project response) (Date_now env))
    by (reflexivity || assumption).
  reflexivity.
Qed.

(** At the one refresh time the two lemmas above leave out: a refresh at
    [Date.now() = 0] stores a timestamp that the validity test reads as
    absent, so the next call fetches again. No running process reads that
    time from its clock. *)
Example refresh_at_time_zero_is_not_reused :
  call_tools [(Sample.up 0, Tool_list_indices); (Sample.up 1000, Tool_list_indices)]
    initial_world
  = ([Returned (listing EmptyString [Sample.logs_summary]);
      Returned (listing EmptyString [Sample.logs_summary])],
     {| cachedIndices := Some [Sample.logs_summary];
        cacheTimestamp := Some 1000;
        events := [CallCatIndices; CallCatIndices] |}).
Proof. vm_compute. reflexivity. Qed.

(** The dump of a listing is the indented JSON of the array of objects
    with the four properties, in the order of the object literal. *)
Lemma indices_dump_projected (response : list ES.CatIndicesIndicesRecord) :
  JSON_stringify_2
    (JArr (List.map
             (fun r => JObj [("index", ES.cat_value (ES.index r));
                             ("health", ES.cat_value (ES.health r));
                             ("status", ES.cat_value (ES.status r));
                             ("docsCount", ES.cat_value (ES.docsCount r))])
             response))
  = inr (Some (indices_dump (List.map project response))).
Proof.
  rewrite <- stringify_summaries, List.map_map. reflexivity.
Qed.

Lemma expired_literal now w :
  cachedIndices w = None \/ cacheTimestamp w = None
  \/ (exists ts, cacheTimestamp w = Some ts /\ 600000 <= now - ts) ->
  cache_valid now (cachedIndices w) (cacheTimestamp w) = false.
Proof.
  intros H. apply expired_not_valid. unfold expired_or_absent, CACHE_DURATION.
  destruct H as [-> | [-> | (ts & -> & Hts)]].
  - exact I.
  - destruct (cachedIndices w); exact I.
  - destruct (cachedIndices w); [exact Hts | exact I].
Qed.

(** C3. When a [list_indices] call fetches the catalog (its trace grows
    by the [cat.indices] call) and the fetch succeeds, at a time [t] of a
    running clock ([0 < t]), then every later [list_indices] call at a
    time [t'] with [t' - t < 600000] returns the sequence that call
    cached: its count fragment ends in [(cached)], its dump is the JSON
    of the projected records, and the call leaves the world as it was,
    so it makes no backend call. *)
Theorem C3_calls_inside_window_are_served_from_cache
    env (envs : list Env) w response :
  0 < Date_now env ->
  cat_indices env = inr response ->
  events (snd (call_tool env Tool_list_indices w))
  = (events w ++ [CallCatIndices])%list ->
  Forall (fun env' => Date_now env' - Date_now env < 600000) envs ->
  exists first dump w1,
    call_tool env Tool_list_indices w = (Returned first, w1)
    /\ JSON_stringify_2
         (JArr (List.map
                  (fun r => JObj [("index", ES.cat_value (ES.index r));
                                  ("health", ES.cat_value (ES.health r));
                                  ("status", ES.cat_value (ES.status r));
                                  ("docsCount", ES.cat_value (ES.docsCount r))])
                  response))
       = inr (Some dump)
    /\ call_tools (List.map (fun env' => (env', Tool_list_indices)) envs) w1
       = (List.map
            (fun _ =>
               Returned
                 {| content :=
                      [ text_fragment ("Found " ++ pretty (Z.of_nat (length response))
                                         ++ " indices (cached)");
                        text_fragment dump ] |})
            envs,
          w1).
Proof.
  intros Hpos Hcat Hfetch Hall.
  destruct (cache_valid (Date_now env) (cachedIndices w) (cacheTimestamp w)) eqn:Hv.
  - exfalso. unfold call_tool in Hfetch. cbn [validate handler] in Hfetch.
    unfold list_indices in Hfetch.
    unfold bind at 1 2, get_cachedIndices, get_cacheTimestamp in Hfetch.
    rewrite Hv in Hfetch. destruct (cache_valid_some _ _ _ Hv) as [l Hl].
    rewrite (indices_result_run _ _ l Hl) in Hfetch. cbn [snd] in Hfetch.
    apply (f_equal (@length Event)) in Hfetch. rewrite length_app in Hfetch.
    cbn [length] in Hfetch. lia.
  - exists (listing EmptyString (List.map project response)),
      (indices_dump (List.map project response)),
      {| cachedIndices := Some (List.map project response);
         cacheTimestamp := Some (Date_now env);
         events := (events w ++ [CallCatIndices])%list |}.
    split; [| split].
    + unfold call_tool. cbn [validate handler].
      rewrite (list_indices_refresh env w response Hv Hcat). reflexivity.
    + apply indices_dump_projected.
    + rewrite (list_indices_window envs _ (List.map project response) (Date_now env));
        [| reflexivity | reflexivity | lia | exact Hall].
      unfold listing, number_text. rewrite length_map. reflexivity.
Qed.

Lemma C3_witness :
  0 < Date_now (Sample.up 1700000000000)
  /\ cat_indices (Sample.up 1700000000000) = inr [Sample.logs]
  /\ events (snd (call_tool (Sample.up 1700000000000) Tool_list_indices initial_world))
     = (events initial_world ++ [CallCatIndices])%list
  /\ Forall (fun env' => Date_now env' - Date_now (Sample.up 1700000000000) < 600000)
       [Sample.up 1700000001000; Sample.down 1700000599999]
  /\ exists first dump w1,
       call_tool (Sample.up 1700000000000) Tool_list_indices initial_world
       = (Returned first, w1)
       /\ JSON_stringify_2
            (JArr (List.map
                     (fun r => JObj [("index", ES.cat_value (ES.index r));
                                     ("health", ES.cat_value (ES.health r));
                                     ("status", ES.cat_value (ES.status r));
                                     ("docsCount", ES.cat_value (ES.docsCount r))])
                     [Sample.logs]))
          = inr (Some dump)
       /\ call_tools (List.map (fun env' => (env', Tool_list_indices))
                        [Sample.up 1700000001000; Sample.down 1700000599999]) w1
          = (List.map
               (fun _ =>
                  Returned
                    {| content :=
                         [ text_fragment ("Found " ++ pretty (Z.of_nat (length [Sample.logs]))
                                            ++ " indices (cached)");
                           text_fragment dump ] |})
               [Sample.up 1700000001000; Sample.down 1700000599999],
             w1).
Proof.
  assert (H1 : 0 < Date_now (Sample.up 1700000000000)) by (cbn; lia).
  assert (H2 : cat_indices (Sample.up 1700000000000) = inr [Sample.logs])
    by reflexivity.
  assert (H3 : events (snd (call_tool (Sample.up 1700000000000) Tool_list_indices
                              initial_world))
               = (events initial_world ++ [CallCatIndices])%list)
    by (vm_compute; reflexivity).
  assert (H4 : Forall (fun env' => Date_now env' - Date_now (Sample.up 1700000000000)
                                    < 600000)
                 [Sample.up 1700000001000; Sample.down 1700000599999])
    by (repeat constructor; cbn; lia).
  split; [exact H1 | split; [exact H2 | split; [exact H3 | split; [exact H4 |]]]].
  exact (C3_calls_inside_window_are_served_from_cache (Sample.up 1700000000000)
           [Sample.up 1700000001000; Sample.down 1700000599999] initial_world
           [Sample.logs] H1 H2 H3 H4).
Defined.

(** C4. A [list_indices] call made when there is no cache entry, or at
    least 600000 ms after the entry was taken, fetches the catalog exactly
    once (the trace grows by one [cat.indices] call), replaces both cache
    variables, by the records of the response reduced to [index],
    [health], [status] and [docsCount] and by the current time, and
    returns the count without [(cached)] and the JSON of those records. *)
Theorem C4_expired_cache_is_refreshed env w response :
  cachedIndices w = None \/ cacheTimestamp w = None
  \/ (exists ts, cacheTimestamp w = Some ts /\ 600000 <= Date_now env - ts) ->
  cat_indices env = inr response ->
  exists dump,
    JSON_stringify_2
      (JArr (List.map
               (fun r => JObj [("index", ES.cat_value (ES.index r));
                               ("health", ES.cat_value (ES.health r));
                               ("status", ES.cat_value (ES.status r));
                               ("docsCount", ES.cat_value (ES.docsCount r))])
               response))
    = inr (Some dump)
    /\ call_tool env Tool_list_indices w
       = (Returned
            {| content :=
                 [ text_fragment ("Found " ++ pretty (Z.of_nat (length response))
                                    ++ " indices");
                   text_fragment dump ] |},
          {| cachedIndices :=
               Some (List.map
                       (fun r => {| index := ES.index r;
                                    health := ES.health r;
                                    status := ES.status r;
                                    docsCount := ES.docsCount r |})
                       response);
             cacheTimestamp := Some (Date_now env);
             events := (events w ++ [CallCatIndices])%list |}).
Proof.
  intros Hexp Hcat. exists (indices_dump (List.map project response)).
  split; [apply indices_dump_projected |].
  unfold call_tool. cbn [validate handler].
  rewrite (list_indices_refresh env w response (expired_literal _ _ Hexp) Hcat).
  unfold listing, number_text. rewrite length_map. reflexivity.
Qed.

Lemma C4_witness :
  (cachedIndices (Sample.cached_at 1000) = None
   \/ cacheTimestamp (Sample.cached_at 1000) = None
   \/ (exists ts, cacheTimestamp (Sample.cached_at 1000) = Some ts
                  /\ 600000 <= Date_now (Sample.up 601000) - ts))
  /\ cat_indices (Sample.up 601000) = inr [Sample.logs]
  /\ exists dump,
       JSON_stringify_2
         (JArr [JObj [("index", JStr "logs"); ("health", JStr "green");
                      ("status", JStr "open"); ("docsCount", JNull)]])
       = inr (Some dump)
       /\ call_tool (Sample.up 601000) Tool_list_indices (Sample.cached_at 1000)
          = (Returned
               {| content := [ text_fragment "Found 1 indices"; text_fragment dump ] |},
             {| cachedIndices :=
                  Some [ {| index := ES.Text "logs"; health := ES.Text "green";
                            status := ES.Text "open"; docsCount := ES.Null |} ];
                cacheTimestamp := Some 601000;
                events := [CallCatIndices; CallCatIndices] |}).
Proof.
  assert (H1 : cachedIndices (Sample.cached_at 1000) = None
               \/ cacheTimestamp (Sample.cached_at 1000) = None
               \/ (exists ts, cacheTimestamp (Sample.cached_at 1000) = Some ts
                              /\ 600000 <= Date_now (Sample.up 601000) - ts))
    by (right; right; exists 1000; split; [reflexivity | cbn; lia]).
  assert (H2 : cat_indices (Sample.up 601000) = inr [Sample.logs]) by reflexivity.
  split; [exact H1 | split; [exact H2 |]].
  exact (C4_expired_cache_is_refreshed (Sample.up 601000) (Sample.cached_at 1000)
           [Sample.logs] H1 H2).
Defined.

(** C5. When the catalog fetch of a refresh fails, both cache variables
    are what they were before the call, and the call returns the error
    result built from the failure. *)
Theorem C5_failed_refresh_keeps_cache env w e :
  cache_valid (Date_now env) (cachedIndices w) (cacheTimestamp w) = false ->
  cat_indices env = inl e ->
  exists w',
    call_tool env Tool_list_indices w
    = (Returned {| content := [text_fragment ("Error: " ++ thrown_to_string e)] |}, w')
    /\ cachedIndices w' = cachedIndices w
    /\ cacheTimestamp w' = cacheTimestamp w
    /\ backend_calls (events w') = (backend_calls (events w) ++ [CallCatIndices])%list.
Proof.
  intros Hv Hcat. unfold call_tool. cbn [validate handler].
  rewrite (list_indices_failure env w e Hv Hcat).
  eexists. split; [reflexivity |]. cbn [cachedIndices cacheTimestamp events].
  repeat split. unfold backend_calls. rewrite List.filter_app. reflexivity.
Qed.

Lemma C5_witness :
  cache_valid 601000 (cachedIndices (Sample.cached_at 1000))
    (cacheTimestamp (Sample.cached_at 1000)) = false
  /\ cat_indices (Sample.down 601000) = inl Sample.refused
  /\ exists w',
       call_tool (Sample.down 601000) Tool_list_indices (Sample.cached_at 1000)
       = (Returned {| content := [text_fragment
            ("Error: " ++ thrown_to_string Sample.refused)] |}, w')
       /\ cachedIndices w' = Some [Sample.logs_summary]
       /\ cacheTimestamp w' = Some 1000
       /\ backend_calls (events w')
          = (backend_calls [CallCatIndices] ++ [CallCatIndices])%list.
Proof.
  assert (H1 : cache_valid 601000 (cachedIndices (Sample.cached_at 1000))
                 (cacheTimestamp (Sample.cached_at 1000)) = false) by reflexivity.
  assert (H2 : cat_indices (Sample.down 601000) = inl Sample.refused) by reflexivity.
  split; [exact H1 | split; [exact H2 |]].
  exact (C5_failed_refresh_keeps_cache (Sample.down 601000) (Sample.cached_at 1000)
           Sample.refused H1 H2).
Defined.

(** ** The request envelope of [search] *)

Lemma searchRequest_highlight index (queryBody : gmap string JValue) :
  searchRequest index queryBody !! "highlight" = Some highlight_all.
Proof. unfold searchRequest. apply lookup_insert_eq. Qed.

Lemma searchRequest_supplied index (queryBody : gmap string JValue) k v :
  k <> "highlight" -> queryBody !! k = Some v ->
  searchRequest index queryBody !! k = Some v.
Proof.
  intros Hk Hq. unfold searchRequest.
  rewrite lookup_insert_ne by congruence.
  apply lookup_union_Some_l, Hq.
Qed.

Lemma searchRequest_index index (queryBody : gmap string JValue) :
  queryBody !! "index" = None ->
  searchRequest index queryBody !! "index" = Some (JStr index).
Proof.
  intros Hq. unfold searchRequest.
  rewrite lookup_insert_ne by discriminate.
  rewrite lookup_union_r by exact Hq. apply lookup_singleton_eq.
Qed.

Lemma searchRequest_other index (queryBody : gmap string JValue) k :
  k <> "index" -> k <> "highlight" ->
  searchRequest index queryBody !! k = queryBody !! k.
Proof.
  intros Hi Hh. unfold searchRequest.
  rewrite lookup_insert_ne by congruence.
  apply lookup_union_l, lookup_singleton_ne. congruence.
Qed.

(** ** Running [search] *)

Lemma mapM_hit_fragment hits w :
  mapM hit_fragment hits w = (stringify_hits hits, w).
Proof.
  induction hits as [| hit rest IH]; [reflexivity |].
  cbn [mapM stringify_hits]. unfold hit_fragment at 1.
  unfold bind at 1 2. unfold lift.
  destruct (JSON_stringify_2 (ES._source hit)) as [e | dump]; [reflexivity |].
  unfold ret at 1. unfold bind. rewrite IH.
  destruct (stringify_hits rest); reflexivity.
Qed.

Lemma stringify_hits_texts hits texts :
  Forall2 (fun hit t => JSON_stringify_2 (ES._source hit) = inr t) hits texts ->
  stringify_hits hits
  = inr (List.map (fun t => {| type := "text"; text := t |}) texts).
Proof.
  induction 1 as [| hit t hits texts Ht _ IH]; [reflexivity |].
  cbn [stringify_hits List.map]. rewrite Ht, IH. reflexivity.
Qed.

Lemma search_try_run env index queryBody w :
  search_try env index queryBody w
  = let w1 := {| cachedIndices := cachedIndices w;
                 cacheTimestamp := cacheTimestamp w;
                 events := (events w ++ [CallSearch (searchRequest index queryBody)])%list |} in
    match es_search env (searchRequest index queryBody) with
    | inl e => (inl e, w1)
    | inr result =>
        (match stringify_hits (ES.hits (ES.response_hits result)) with
         | inl e => inl e
         | inr fragments =>
             inr {| content :=
                      metadataFragment result (requested_from queryBody) :: fragments |}
         end, w1)
    end.
Proof.
  unfold search_try. cbv zeta. rewrite await_run. cbv zeta.
  destruct (es_search env _) as [e | result]; [reflexivity |].
  unfold bind. rewrite mapM_hit_fragment.
  destruct (stringify_hits _); reflexivity.
Qed.

(** Every run of the [search] handler makes exactly one call to
    Elasticsearch, with the envelope [searchRequest] builds. *)
Lemma search_dispatches env index queryBody w :
  exists r w',
    search env index queryBody w = (inr r, w')
    /\ backend_calls (events w')
       = (backend_calls (events w) ++ [CallSearch (searchRequest index queryBody)])%list.
Proof.
  unfold search, try_catch. rewrite search_try_run. cbv zeta.
  destruct (es_search env _) as [e | result].
  - rewrite search_catch_run. do 2 eexists. split; [reflexivity |].
    cbn [events]. unfold backend_calls. rewrite !List.filter_app.
    cbn. rewrite app_nil_r. reflexivity.
  - destruct (stringify_hits _) as [e | fragments].
    + rewrite search_catch_run. do 2 eexists. split; [reflexivity |].
      cbn [events]. unfold backend_calls. rewrite !List.filter_app.
      cbn. rewrite app_nil_r. reflexivity.
    + do 2 eexists. split; [reflexivity |].
      cbn [events]. unfold backend_calls. rewrite List.filter_app. reflexivity.
Qed.

(** ** The schemas *)

Lemma trimmed_min1_ok message s t :
  trimmed_min1 message s = inr t -> t = trim s /\ t <> EmptyString.
Proof.
  unfold trimmed_min1. destruct (trim s) as [| c rest] eqn:Ht; cbn.
  - discriminate.
  - intros [= <-]. split; [reflexivity | discriminate].
Qed.

Lemma trimmed_min1_empty message s :
  trim s = EmptyString -> trimmed_min1 message s = inl [message].
Proof. unfold trimmed_min1. intros ->. reflexivity. Qed.

Lemma validate_search_ok index queryBody args :
  validate (Tool_search index queryBody) = inr args ->
  args = Tool_search (trim index) (record_parse queryBody)
  /\ trim index <> EmptyString
  /\ queryBody_refine (record_parse queryBody) = true.
Proof.
  cbn [validate]. unfold queryBody_schema. cbv zeta.
  destruct (trimmed_min1 _ index) as [issues | index'] eqn:Hi;
    destruct (queryBody_refine (record_parse queryBody)); try discriminate.
  intros [= <-]. apply trimmed_min1_ok in Hi as [-> Hne]. auto.
Qed.

Lemma validate_get_mappings_ok index args :
  validate (Tool_get_mappings index) = inr args ->
  args = Tool_get_mappings (trim index) /\ trim index <> EmptyString.
Proof.
  cbn [validate].
  destruct (trimmed_min1 _ index) as [issues | index'] eqn:Hi; [discriminate |].
  intros [= <-]. apply trimmed_min1_ok in Hi as [-> Hne]. auto.
Qed.

(** A BigInt anywhere among the values of the query body makes the
    [refine] predicate fail. *)
Lemma serialize_members_throws ser colon (l : list (string * JValue)) k x e :
  In (k, x) l -> ser x = inl e ->
  exists e', serialize_members ser colon l = inl e'.
Proof.
  intros Hin Hx. induction l as [| [k' x'] rest IH]; [contradiction |].
  cbn [serialize_members]. destruct Hin as [[= -> ->] | Hin].
  - rewrite Hx. eauto.
  - destruct (ser x'); [eauto |].
    destruct (IH Hin) as [e' ->]. eauto.
Qed.

Lemma queryBody_refine_bigint (queryBody : gmap string JValue) k n :
  queryBody !! k = Some (JBigInt n) -> queryBody_refine queryBody = false.
Proof.
  intros Hk. unfold queryBody_refine, JSON_stringify. cbn [SerializeJSONProperty].
  apply elem_of_map_to_list, list_elem_of_In in Hk.
  destruct (serialize_members_throws
              (SerializeJSONProperty EmptyString (EmptyString ++ EmptyString))
              ":" _ _ _ _ Hk eq_refl) as [e' He'].
  cbn [String.eqb] in *. rewrite He'. reflexivity.
Qed.

(** ** Claims about the dispatcher *)

(** C1 (as amended). No invocation lets an exception out of its handler;
    and when the schema accepts the arguments and a failure arises inside
    the handler (Elasticsearch rejects the call, or anything else in the
    [try] block throws), the invocation returns a result whose content is
    one text fragment that begins with [Error:]. *)
Theorem C1_handler_failures_become_error_results env c w :
  (forall error, fst (call_tool env c w) <> Escaped error)
  /\ (forall args e,
        validate c = inr args ->
        backend_failure env args w = Some e \/ thrown_inside env args w = Some e ->
        exists s w',
          call_tool env c w = (Returned {| content := [text_fragment s] |}, w')
          /\ String.prefix "Error:" s = true).
Proof.
  split.
  - intros error. unfold call_tool. destruct (validate c) as [issues | args].
    + discriminate.
    + destruct (handler_returns env args w) as (r & w' & ->). discriminate.
  - intros args e Hv Hfail.
    assert (Hin : thrown_inside env args w = Some e)
      by (destruct Hfail; [apply backend_failure_thrown |]; assumption).
    destruct (thrown_inside_caught env args w e Hin) as [w' Hh].
    exists ("Error: " ++ caught_text args e), w'.
    unfold call_tool. rewrite Hv, Hh. split; reflexivity.
Qed.

Lemma C1_witness :
  validate (Tool_get_mappings " logs ") = inr (Tool_get_mappings "logs")
  /\ backend_failure (Sample.down 5) (Tool_get_mappings "logs") initial_world
     = Some Sample.refused
  /\ exists s w',
       call_tool (Sample.down 5) (Tool_get_mappings " logs ") initial_world
       = (Returned {| content := [text_fragment s] |}, w')
       /\ String.prefix "Error:" s = true.
Proof.
  assert (H1 : validate (Tool_get_mappings " logs ") = inr (Tool_get_mappings "logs"))
    by reflexivity.
  assert (H2 : backend_failure (Sample.down 5) (Tool_get_mappings "logs") initial_world
               = Some Sample.refused) by reflexivity.
  split; [exact H1 | split; [exact H2 |]].
  exact (proj2 (C1_handler_failures_become_error_results (Sample.down 5)
                  (Tool_get_mappings " logs ") initial_world)
           (Tool_get_mappings "logs") Sample.refused H1 (or_introl H2)).
Defined.

(** C1, as stated, fails on a validation error: the schema of [search]
    turns an empty index name down before the handler is called, so no
    [catch] clause runs and the invocation does not end in a result with
    an [Error:] fragment. *)
Lemma C1_schema_issue_is_not_an_error_fragment :
  validate (Tool_search EmptyString ∅) = inl ["Exact index name is required."]
  /\ ~ exists s w',
         call_tool (Sample.up 5) (Tool_search EmptyString ∅) initial_world
         = (Returned {| content := [text_fragment s] |}, w').
Proof.
  split; [reflexivity |]. intros (s & w' & H). vm_compute in H. discriminate H.
Qed.

(** ** Claims about [search] *)

(** What [z.record] hands on, key by key. *)
Lemma record_parse_keeps (queryBody : gmap string JValue) k v :
  k <> "__proto__" -> v <> JUndefined ->
  queryBody !! k = Some v -> record_parse queryBody !! k = Some v.
Proof.
  intros Hk Hv Hq. unfold record_parse. apply map_lookup_filter_Some.
  split; [exact Hq |]. cbn [fst snd]. split; [exact Hk |].
  destruct v; try reflexivity. contradiction.
Qed.

Lemma record_parse_drops (queryBody : gmap string JValue) k :
  queryBody !! k = None \/ queryBody !! k = Some JUndefined \/ k = "__proto__" ->
  record_parse queryBody !! k = None.
Proof.
  intros H. unfold record_parse. apply map_lookup_filter_None.
  destruct H as [H | [H | ->]].
  - left. exact H.
  - right. intros v Hv [_ Hu]. rewrite H in Hv. injection Hv as <-. discriminate.
  - right. intros v _ [Hk _]. cbn [fst] in Hk. contradiction.
Qed.

(** The run of an accepted [search] whose backend call succeeds and
    whose hits serialize. *)
Lemma search_success env index queryBody args w result texts :
  validate (Tool_search index queryBody) = inr args ->
  es_search env (searchRequest (trim index) (record_parse queryBody)) = inr result ->
  Forall2 (fun hit t => JSON_stringify_2 (ES._source hit) = inr t)
    (ES.hits (ES.response_hits result)) texts ->
  call_tool env (Tool_search index queryBody) w
  = (Returned
       {| content :=
            metadataFragment result (requested_from (record_parse queryBody))
            :: List.map (fun t => {| type := "text"; text := t |}) texts |},
     {| cachedIndices := cachedIndices w;
        cacheTimestamp := cacheTimestamp w;
        events := (events w
                   ++ [CallSearch (searchRequest (trim index)
                                     (record_parse queryBody))])%list |}).
Proof.
  intros Hv Hes Htexts. destruct (validate_search_ok _ _ _ Hv) as (-> & _ & _).
  unfold call_tool. rewrite Hv. cbn [handler].
  unfold search, try_catch. rewrite search_try_run. cbv zeta.
  rewrite Hes, (stringify_hits_texts _ _ Htexts). reflexivity.
Qed.

(** The total the metadata reports, for a total of each shape. *)
Lemma total_value_text (total : JValue) (t : string) :
  total = JNum t
  \/ (exists props, total = JObj props /\ own_prop props "value" = JNum t
                    /\ t <> "NaN")
  \/ (total = JUndefined /\ t = "0") ->
  ToString (total_value total) = t.
Proof.
  intros [-> | [(props & -> & Hvalue & Hnan) | [-> ->]]]; [reflexivity | | reflexivity].
  unfold total_value. cbn [typeof_number opt_chain]. rewrite Hvalue.
  unfold js_or. cbn [truthy]. apply String.eqb_neq in Hnan. rewrite Hnan.
  destruct (String.eqb_spec t "0") as [-> | _]; reflexivity.
Qed.

(** The position the metadata reports, for a query with or without a
    numeric [from]. *)
Lemma requested_from_text (queryBody : gmap string JValue) (f : string) :
  (queryBody !! "from" = None /\ f = "0")
  \/ (queryBody !! "from" = Some (JNum f) /\ f <> "NaN") ->
  ToString (requested_from (record_parse queryBody)) = f.
Proof.
  unfold requested_from. intros [[Hq ->] | [Hq Hnan]].
  - rewrite (record_parse_drops queryBody "from") by (left; exact Hq). reflexivity.
  - rewrite (record_parse_keeps queryBody "from" (JNum f)) by (discriminate || exact Hq).
    cbn [default from_option id]. unfold js_or. cbn [truthy].
    apply String.eqb_neq in Hnan. rewrite Hnan.
    destruct (String.eqb_spec f "0") as [-> | _]; reflexivity.
Qed.

(** C2 (as amended). When the schema accepts a [search] invocation and the
    query body has no [index] key, the one request sent to Elasticsearch
    carries the trimmed index name under [index] and
    [{ fields: { "*": {} } }] under [highlight]; every other property of
    the query body is carried as it is, except a property named
    [__proto__] and properties whose value is [undefined], which the
    record schema drops; and the request has no further key. *)
Theorem C2_request_envelope env index queryBody args w :
  validate (Tool_search index queryBody) = inr args ->
  queryBody !! "index" = None ->
  exists request,
    backend_calls (events (snd (call_tool env (Tool_search index queryBody) w)))
    = (backend_calls (events w) ++ [CallSearch request])%list
    /\ request !! "index" = Some (JStr (trim index))
    /\ request !! "highlight" = Some (JObj [("fields", JObj [("*", JObj [])])])
    /\ (forall k v, k <> "highlight" -> k <> "__proto__" -> v <> JUndefined ->
                    queryBody !! k = Some v -> request !! k = Some v)
    /\ (forall k, k <> "index" -> k <> "highlight" ->
                  queryBody !! k = None \/ queryBody !! k = Some JUndefined
                  \/ k = "__proto__" ->
                  request !! k = None).
Proof.
  intros Hv Hq. destruct (validate_search_ok _ _ _ Hv) as (-> & _ & _).
  exists (searchRequest (trim index) (record_parse queryBody)).
  unfold call_tool. rewrite Hv. cbn [handler].
  destruct (search_dispatches env (trim index) (record_parse queryBody) w)
    as (r & w' & -> & Hcalls).
  cbn [snd]. split; [exact Hcalls |]. split; [| split; [| split]].
  - apply searchRequest_index, record_parse_drops. left. exact Hq.
  - apply searchRequest_highlight.
  - intros k v Hh Hp Hu Hk. apply searchRequest_supplied; [exact Hh |].
    apply record_parse_keeps; assumption.
  - intros k Hi Hh Hk. rewrite searchRequest_other by assumption.
    apply record_parse_drops, Hk.
Qed.

Lemma C2_witness :
  validate (Tool_search " logs" {["from" := JNum "10"; "__proto__" := JNull]})
  = inr (Tool_search "logs" {["from" := JNum "10"]})
  /\ ({["from" := JNum "10"; "__proto__" := JNull]} : gmap string JValue) !! "index"
     = None
  /\ exists request,
       backend_calls (events (snd (call_tool (Sample.up 5)
                        (Tool_search " logs" {["from" := JNum "10"; "__proto__" := JNull]})
                        initial_world)))
       = (backend_calls (events initial_world) ++ [CallSearch request])%list
       /\ request !! "index" = Some (JStr (trim " logs"))
       /\ request !! "highlight" = Some (JObj [("fields", JObj [("*", JObj [])])])
       /\ (forall k v, k <> "highlight" -> k <> "__proto__" -> v <> JUndefined ->
                       ({["from" := JNum "10"; "__proto__" := JNull]}
                          : gmap string JValue) !! k = Some v ->
                       request !! k = Some v)
       /\ (forall k, k <> "index" -> k <> "highlight" ->
                     ({["from" := JNum "10"; "__proto__" := JNull]}
                        : gmap string JValue) !! k = None
                     \/ ({["from" := JNum "10"; "__proto__" := JNull]}
                           : gmap string JValue) !! k = Some JUndefined
                     \/ k = "__proto__" ->
                     request !! k = None).
Proof.
  assert (H1 : validate (Tool_search " logs"
                 {["from" := JNum "10"; "__proto__" := JNull]})
               = inr (Tool_search "logs" {["from" := JNum "10"]}))
    by (vm_compute; reflexivity).
  assert (H2 : ({["from" := JNum "10"; "__proto__" := JNull]}
                  : gmap string JValue) !! "index" = None)
    by (vm_compute; reflexivity).
  split; [exact H1 | split; [exact H2 |]].
  exact (C2_request_envelope (Sample.up 5) " logs"
           {["from" := JNum "10"; "__proto__" := JNull]} _ initial_world H1 H2).
Defined.

(** C2, as stated, fails: the spread comes after [index] in the object
    literal, so an [index] key of the query body replaces the explicit
    index name in the request; and the query body's [highlight] does not
    take precedence, the literal writes over it. *)
Lemma C2_query_body_index_wins :
  let queryBody : gmap string JValue :=
    {["index" := JStr "other"; "highlight" := JObj []]} in
  backend_calls (events (snd (call_tool (Sample.up 5)
                   (Tool_search "logs" queryBody) initial_world)))
  = [CallSearch (searchRequest "logs" queryBody)]
  /\ searchRequest "logs" queryBody !! "index" = Some (JStr "other")
  /\ searchRequest "logs" queryBody !! "index" <> Some (JStr "logs")
  /\ searchRequest "logs" queryBody !! "highlight" <> queryBody !! "highlight".
Proof.
  cbv zeta. split; [vm_compute; reflexivity |].
  split; [vm_compute; reflexivity |].
  split; vm_compute; discriminate.
Qed.

(** C10. Whatever the query body holds, its own [highlight] included, the
    request an accepted [search] invocation sends to Elasticsearch carries
    [highlight = { fields: { "*": {} } }]. *)
Theorem C10_highlight_is_always_overwritten env index queryBody args w :
  validate (Tool_search index queryBody) = inr args ->
  exists request,
    backend_calls (events (snd (call_tool env (Tool_search index queryBody) w)))
    = (backend_calls (events w) ++ [CallSearch request])%list
    /\ request !! "highlight" = Some (JObj [("fields", JObj [("*", JObj [])])]).
Proof.
  intros Hv. destruct (validate_search_ok _ _ _ Hv) as (-> & _ & _).
  exists (searchRequest (trim index) (record_parse queryBody)).
  unfold call_tool. rewrite Hv. cbn [handler].
  destruct (search_dispatches env (trim index) (record_parse queryBody) w)
    as (r & w' & -> & Hcalls).
  cbn [snd]. split; [exact Hcalls |]. apply searchRequest_highlight.
Qed.

Lemma C10_witness :
  let queryBody : gmap string JValue :=
    {["highlight" := JObj [("fields", JObj [("title", JObj [])])]]} in
  validate (Tool_search "logs" queryBody) = inr (Tool_search "logs" queryBody)
  /\ exists request,
       backend_calls (events (snd (call_tool (Sample.up 5)
                        (Tool_search "logs" queryBody) initial_world)))
       = (backend_calls (events initial_world) ++ [CallSearch request])%list
       /\ request !! "highlight" = Some (JObj [("fields", JObj [("*", JObj [])])]).
Proof.
  cbv zeta.
  assert (H1 : validate (Tool_search "logs"
                 {["highlight" := JObj [("fields", JObj [("title", JObj [])])]]})
               = inr (Tool_search "logs"
                 {["highlight" := JObj [("fields", JObj [("title", JObj [])])]]}))
    by (vm_compute; reflexivity).
  split; [exact H1 |].
  exact (C10_highlight_is_always_overwritten (Sample.up 5) "logs" _ _
           initial_world H1).
Defined.

(** C6. The metadata fragment a successful [search] returns first
    reports as total the [total] field itself when it is a number, its
    [value] when it is an object, and 0 when it is absent: 42 and
    [{value: 42}] both give [Total results: 42]. *)
Theorem C6_total_in_both_shapes env index queryBody args w result texts t :
  validate (Tool_search index queryBody) = inr args ->
  es_search env (searchRequest (trim index) (record_parse queryBody)) = inr result ->
  Forall2 (fun hit text' => JSON_stringify_2 (ES._source hit) = inr text')
    (ES.hits (ES.response_hits result)) texts ->
  ES.total (ES.response_hits result) = JNum t
  \/ (exists props, ES.total (ES.response_hits result) = JObj props
                    /\ own_prop props "value" = JNum t /\ t <> "NaN")
  \/ (ES.total (ES.response_hits result) = JUndefined /\ t = "0") ->
  exists position rest w',
    call_tool env (Tool_search index queryBody) w
    = (Returned
         {| content :=
              text_fragment
                ("Total results: " ++ t ++ ", showing "
                   ++ pretty (Z.of_nat (length (ES.hits (ES.response_hits result))))
                   ++ " from position " ++ position)
              :: rest |},
       w').
Proof.
  intros Hv Hes Htexts Htotal.
  rewrite (search_success env index queryBody args w result texts Hv Hes Htexts).
  unfold metadataFragment, metadata_text, number_text.
  rewrite (total_value_text _ _ Htotal). eauto.
Qed.

Lemma C6_witness :
  validate (Tool_search "logs" ∅) = inr (Tool_search "logs" ∅)
  /\ es_search (Sample.up 5) (searchRequest (trim "logs") (record_parse ∅))
     = inr Sample.two_hits
  /\ Forall2 (fun hit text' => JSON_stringify_2 (ES._source hit) = inr text')
       (ES.hits (ES.response_hits Sample.two_hits))
       [Some ("{" ++ newline ++ "  " ++ dquote ++ "a" ++ dquote ++ ": 1"
                ++ newline ++ "}");
        Some "{}"]
  /\ (ES.total (ES.response_hits Sample.two_hits) = JNum "42"
      \/ (exists props, ES.total (ES.response_hits Sample.two_hits) = JObj props
                        /\ own_prop props "value" = JNum "42" /\ "42" <> "NaN")
      \/ (ES.total (ES.response_hits Sample.two_hits) = JUndefined /\ "42" = "0"))
  /\ exists position rest w',
       call_tool (Sample.up 5) (Tool_search "logs" ∅) initial_world
       = (Returned
            {| content :=
                 text_fragment ("Total results: " ++ "42" ++ ", showing "
                                  ++ pretty (Z.of_nat 2) ++ " from position " ++ position)
                 :: rest |},
          w').
Proof.
  assert (H1 : validate (Tool_search "logs" ∅) = inr (Tool_search "logs" ∅))
    by (vm_compute; reflexivity).
  assert (H2 : es_search (Sample.up 5) (searchRequest (trim "logs") (record_parse ∅))
               = inr Sample.two_hits) by reflexivity.
  assert (H3 : Forall2 (fun hit text' => JSON_stringify_2 (ES._source hit) = inr text')
                 (ES.hits (ES.response_hits Sample.two_hits))
                 [Some ("{" ++ newline ++ "  " ++ dquote ++ "a" ++ dquote ++ ": 1"
                          ++ newline ++ "}");
                  Some "{}"])
    by (repeat constructor).
  assert (H4 : ES.total (ES.response_hits Sample.two_hits) = JNum "42"
               \/ (exists props, ES.total (ES.response_hits Sample.two_hits) = JObj props
                                 /\ own_prop props "value" = JNum "42" /\ "42" <> "NaN")
               \/ (ES.total (ES.response_hits Sample.two_hits) = JUndefined
                   /\ "42" = "0"))
    by (right; left; eexists; split; [reflexivity | split; [reflexivity | discriminate]]).
  split; [exact H1 | split; [exact H2 | split; [exact H3 | split; [exact H4 |]]]].
  exact (C6_total_in_both_shapes (Sample.up 5) "logs" ∅ _ initial_world
           Sample.two_hits _ "42" H1 H2 H3 H4).
Defined.

(** The layout of a successful [search] result: the
    metadata fragment with the total, the number of hits and the [from]
    of the query (0 when it has none), followed by one fragment per hit,
    in the order of the response, whose [text] is what
    [JSON.stringify(hit._source, null, 2)] returns: the JSON of the
    source, or [undefined] for a hit that has none. *)
Theorem search_result_layout env index queryBody args w result texts t f :
  validate (Tool_search index queryBody) = inr args ->
  es_search env (searchRequest (trim index) (record_parse queryBody)) = inr result ->
  Forall2 (fun hit text' => JSON_stringify_2 (ES._source hit) = inr text')
    (ES.hits (ES.response_hits result)) texts ->
  ES.total (ES.response_hits result) = JNum t
  \/ (exists props, ES.total (ES.response_hits result) = JObj props
                    /\ own_prop props "value" = JNum t /\ t <> "NaN")
  \/ (ES.total (ES.response_hits result) = JUndefined /\ t = "0") ->
  (queryBody !! "from" = None /\ f = "0")
  \/ (queryBody !! "from" = Some (JNum f) /\ f <> "NaN") ->
  fst (call_tool env (Tool_search index queryBody) w)
  = Returned
      {| content :=
           text_fragment
             ("Total results: " ++ t ++ ", showing "
                ++ pretty (Z.of_nat (length (ES.hits (ES.response_hits result))))
                ++ " from position " ++ f)
           :: List.map (fun text' => {| type := "text"; text := text' |}) texts |}.
Proof.
  intros Hv Hes Htexts Htotal Hfrom.
  rewrite (search_success env index queryBody args w result texts Hv Hes Htexts).
  cbn [fst]. unfold metadataFragment, metadata_text, number_text.
  rewrite (total_value_text _ _ Htotal), (requested_from_text _ _ Hfrom).
  reflexivity.
Qed.

Lemma search_result_layout_witness :
  let queryBody : gmap string JValue := {["from" := JNum "10"]} in
  validate (Tool_search "logs" queryBody) = inr (Tool_search "logs" queryBody)
  /\ es_search (Sample.up 5) (searchRequest (trim "logs") (record_parse queryBody))
     = inr Sample.two_hits
  /\ Forall2 (fun hit text' => JSON_stringify_2 (ES._source hit) = inr text')
       (ES.hits (ES.response_hits Sample.two_hits))
       [Some ("{" ++ newline ++ "  " ++ dquote ++ "a" ++ dquote ++ ": 1"
                ++ newline ++ "}");
        Some "{}"]
  /\ fst (call_tool (Sample.up 5) (Tool_search "logs" queryBody) initial_world)
     = Returned
         {| content :=
              [ text_fragment "Total results: 42, showing 2 from position 10";
                text_fragment ("{" ++ newline ++ "  " ++ dquote ++ "a" ++ dquote
                                 ++ ": 1" ++ newline ++ "}");
                text_fragment "{}" ] |}.
Proof.
  cbv zeta.
  assert (H1 : validate (Tool_search "logs" {["from" := JNum "10"]})
               = inr (Tool_search "logs" {["from" := JNum "10"]}))
    by (vm_compute; reflexivity).
  assert (H2 : es_search (Sample.up 5)
                 (searchRequest (trim "logs") (record_parse {["from" := JNum "10"]}))
               = inr Sample.two_hits) by reflexivity.
  assert (H3 : Forall2 (fun hit text' => JSON_stringify_2 (ES._source hit) = inr text')
                 (ES.hits (ES.response_hits Sample.two_hits))
                 [Some ("{" ++ newline ++ "  " ++ dquote ++ "a" ++ dquote ++ ": 1"
                          ++ newline ++ "}");
                  Some "{}"])
    by (repeat constructor).
  split; [exact H1 | split; [exact H2 | split; [exact H3 |]]].
  rewrite (search_result_layout (Sample.up 5) "logs" {["from" := JNum "10"]} _
             initial_world Sample.two_hits _ "42" "10" H1 H2 H3).
  - vm_compute. reflexivity.
  - right. left. eexists. split; [reflexivity | split; [reflexivity | discriminate]].
  - right. split; [vm_compute; reflexivity | discriminate].
Defined.

(** C7 (the code departs from the claim). For a hit that comes without
    [_source] (a query with [_source: false] gets such hits),
    [JSON.stringify(hit._source, null, 2)] is [undefined]: the fragment
    of that hit has no text, where the claim has a text fragment holding
    the source as JSON. *)
Theorem C7_hit_without_source_has_no_text :
  call_tool (Sample2.sourceless 5)
    (Tool_search "logs" {["_source" := JBool false]}) initial_world
  = (Returned
       {| content :=
            [ text_fragment "Total results: 1, showing 1 from position 0";
              {| type := "text"; text := None |} ] |},
     {| cachedIndices := None;
        cacheTimestamp := None;
        events := [CallSearch (searchRequest "logs" {["_source" := JBool false]})] |}).
Proof. vm_compute. reflexivity. Qed.

(** C8 (as amended). A [search] invocation whose index name is empty once
    trimmed, or whose query body, as the record schema hands it on, does
    not survive [JSON.parse(JSON.stringify(...))], is turned down by the
    schema with the messages of the schema: the handler is never entered,
    so nothing is sent to Elasticsearch and the world is left as it
    was. *)
Theorem C8_invalid_search_never_reaches_backend env index queryBody w :
  trim index = EmptyString \/ queryBody_refine (record_parse queryBody) = false ->
  exists issues,
    issues <> []
    /\ Forall (fun issue =>
                 issue = "Exact index name is required."
                 \/ issue = "queryBody must be a valid Elasticsearch query DSL object")
         issues
    /\ call_tool env (Tool_search index queryBody) w = (Rejected issues, w).
Proof.
  intros Hbad. unfold call_tool. cbn [validate]. unfold queryBody_schema. cbv zeta.
  destruct (trimmed_min1 _ index) as [issues | index'] eqn:Hi.
  - assert (issues = ["Exact index name is required."]) as ->.
    { unfold trimmed_min1 in Hi. destruct (_ <? _)%nat; congruence. }
    destruct (queryBody_refine (record_parse queryBody)).
    + exists ["Exact index name is required."].
      split; [discriminate | split; [| reflexivity]]. repeat (constructor; [first [left; reflexivity | right; reflexivity] |]);
      constructor.
    + exists ["Exact index name is required.";
              "queryBody must be a valid Elasticsearch query DSL object"].
      split; [discriminate | split; [| reflexivity]]. repeat (constructor; [first [left; reflexivity | right; reflexivity] |]);
      constructor.
  - destruct Hbad as [Hempty | Hrefine].
    + rewrite (trimmed_min1_empty _ _ Hempty) in Hi. discriminate.
    + rewrite Hrefine.
      exists ["queryBody must be a valid Elasticsearch query DSL object"].
      split; [discriminate | split; [| reflexivity]]. repeat (constructor; [first [left; reflexivity | right; reflexivity] |]);
      constructor.
Qed.

Lemma C8_witness :
  (trim "  " = EmptyString
   \/ queryBody_refine (record_parse ({["size" := JBigInt 10]} : gmap string JValue))
      = false)
  /\ exists issues,
       issues <> []
       /\ Forall (fun issue =>
                    issue = "Exact index name is required."
                    \/ issue = "queryBody must be a valid Elasticsearch query DSL object")
            issues
       /\ call_tool (Sample.up 5) (Tool_search "  " {["size" := JBigInt 10]})
            initial_world
          = (Rejected issues, initial_world).
Proof.
  assert (H : trim "  " = EmptyString
              \/ queryBody_refine
                   (record_parse ({["size" := JBigInt 10]} : gmap string JValue))
                 = false)
    by (left; reflexivity).
  split; [exact H |].
  exact (C8_invalid_search_never_reaches_backend (Sample.up 5) "  "
           {["size" := JBigInt 10]} initial_world H).
Defined.

(** C8, as stated, fails in what the invocation yields: a query body that
    [JSON.stringify] cannot serialize is turned down by the schema, and the
    invocation ends with the schema's issue, not with a tool result built
    by the handler. *)
Lemma C8_rejection_is_not_a_tool_result :
  call_tool (Sample.up 5) (Tool_search "logs" {["size" := JBigInt 10]}) initial_world
  = (Rejected ["queryBody must be a valid Elasticsearch query DSL object"],
     initial_world)
  /\ ~ exists r w',
         call_tool (Sample.up 5) (Tool_search "logs" {["size" := JBigInt 10]})
           initial_world
         = (Returned r, w').
Proof.
  assert (H : call_tool (Sample.up 5) (Tool_search "logs" {["size" := JBigInt 10]})
                initial_world
              = (Rejected ["queryBody must be a valid Elasticsearch query DSL object"],
                 initial_world))
    by (vm_compute; reflexivity).
  split; [exact H |]. intros (r & w' & H'). rewrite H in H'. discriminate H'.
Qed.

(** ** Claims about [get_mappings] *)

(** C9. When the response of [getMapping] has no mapping data for the
    index, [get_mappings] still succeeds: it returns two text fragments,
    a header naming the index and a second one ending in the empty object
    literal. *)
Theorem C9_absent_mappings_print_empty_object env index args w mappingResponse :
  validate (Tool_get_mappings index) = inr args ->
  indices_getMapping env (trim index) = inr mappingResponse ->
  mappings_absent mappingResponse (trim index) ->
  exists w',
    call_tool env (Tool_get_mappings index) w
    = (Returned
         {| content :=
              [ text_fragment ("Mappings for index: " ++ trim index);
                text_fragment ("Mappings for index " ++ trim index ++ ": {}") ] |},
       w').
Proof.
  intros Hv Hes Habs. destruct (validate_get_mappings_ok _ _ Hv) as (-> & _).
  unfold call_tool. rewrite Hv. cbn [handler].
  unfold get_mappings, try_catch, get_mappings_try.
  rewrite await_run, Hes. cbv zeta.
  assert (Hor : js_or (opt_chain (default JUndefined (mappingResponse !! trim index))
                         "mappings") (JObj []) = JObj [])
    by (destruct Habs as [-> | ->]; reflexivity).
  rewrite Hor. eexists. reflexivity.
Qed.

Lemma C9_witness :
  validate (Tool_get_mappings "logs") = inr (Tool_get_mappings "logs")
  /\ indices_getMapping (Sample.up 5) (trim "logs") = inr ∅
  /\ mappings_absent ∅ (trim "logs")
  /\ exists w',
       call_tool (Sample.up 5) (Tool_get_mappings "logs") initial_world
       = (Returned
            {| content :=
                 [ text_fragment ("Mappings for index: " ++ trim "logs");
                   text_fragment ("Mappings for index " ++ trim "logs" ++ ": {}") ] |},
          w').
Proof.
  assert (H1 : validate (Tool_get_mappings "logs") = inr (Tool_get_mappings "logs"))
    by reflexivity.
  assert (H2 : indices_getMapping (Sample.up 5) (trim "logs") = inr ∅) by reflexivity.
  assert (H3 : mappings_absent ∅ (trim "logs")) by (left; reflexivity).
  split; [exact H1 | split; [exact H2 | split; [exact H3 |]]].
  exact (C9_absent_mappings_print_empty_object (Sample.up 5) "logs" _ initial_world
           ∅ H1 H2 H3).
Defined.

(** * Further properties of the code *)

(** ** White space around an index name *)

Lemma trim_start_unfold s :
  trim_start s
  = match skip_space s with
    | Some rest => trim_start rest
    | None => s
    end.
Proof.
  destruct s as [| c1 r1]; [reflexivity |]. cbn [trim_start skip_space].
  destruct (is_space c1); [reflexivity |].
  destruct r1 as [| c2 r2]; [reflexivity |].
  destruct (is_space2 c1 c2); [reflexivity |].
  destruct r2 as [| c3 r3]; [reflexivity |].
  destruct (is_space3 c1 c2 c3); reflexivity.
Qed.

Lemma skip_space_length s rest :
  skip_space s = Some rest -> (String.length rest < String.length s)%nat.
Proof.
  destruct s as [| c1 r1]; [discriminate |]. cbn [skip_space].
  destruct (is_space c1); [intros [= <-]; cbn; lia |].
  destruct r1 as [| c2 r2]; [discriminate |].
  destruct (is_space2 c1 c2); [intros [= <-]; cbn; lia |].
  destruct r2 as [| c3 r3]; [discriminate |].
  destruct (is_space3 c1 c2 c3); [intros [= <-]; cbn; lia | discriminate].
Qed.

Lemma skip_space_app s rest tail :
  skip_space s = Some rest -> skip_space (s ++ tail) = Some (rest ++ tail).
Proof.
  destruct s as [| c1 r1]; [discriminate |].
  change (String c1 r1 ++ tail) with (String c1 (r1 ++ tail)). cbn [skip_space].
  destruct (is_space c1); [intros [= <-]; reflexivity |].
  destruct r1 as [| c2 r2]; [discriminate |].
  change (String c2 r2 ++ tail) with (String c2 (r2 ++ tail)). cbv beta iota.
  destruct (is_space2 c1 c2); [intros [= <-]; reflexivity |].
  destruct r2 as [| c3 r3]; [discriminate |].
  change (String c3 r3 ++ tail) with (String c3 (r3 ++ tail)). cbv beta iota.
  destruct (is_space3 c1 c2 c3); [intros [= <-]; reflexivity | discriminate].
Qed.

(** What [trim_start] returns does not start with white space. *)
Lemma trim_start_no_space s : skip_space (trim_start s) = None.
Proof.
  remember (String.length s) as n eqn:Hn. revert s Hn.
  induction n as [n IH] using lt_wf_ind. intros s ->.
  rewrite trim_start_unfold. destruct (skip_space s) as [rest |] eqn:Hs.
  - apply (IH (String.length rest)); [apply skip_space_length, Hs | reflexivity].
  - exact Hs.
Qed.

Lemma trim_start_fixed s : skip_space s = None -> trim_start s = s.
Proof. intros Hs. rewrite trim_start_unfold, Hs. reflexivity. Qed.

(** White space in front of a string does not survive [trim_start]. *)
Lemma trim_start_app s tail :
  trim_start s = EmptyString -> trim_start (s ++ tail) = trim_start tail.
Proof.
  remember (String.length s) as n eqn:Hn. revert s Hn.
  induction n as [n IH] using lt_wf_ind. intros s -> Hs.
  rewrite trim_start_unfold in Hs. destruct (skip_space s) as [rest |] eqn:Hskip.
  - rewrite trim_start_unfold, (skip_space_app _ _ tail Hskip).
    apply (IH (String.length rest)); [apply skip_space_length, Hskip | reflexivity | exact Hs].
  - subst s. reflexivity.
Qed.

(** [trim_end] cuts a tail of white space off. *)
Lemma trim_end_tail s :
  exists tail, s = trim_end s ++ tail /\ trim_start tail = EmptyString.
Proof.
  induction s as [| c rest (tail & Htail & Hspace)].
  - exists EmptyString. split; reflexivity.
  - cbn [trim_end]. destruct (only_space (String c rest)) eqn:E.
    + exists (String c rest). split; [reflexivity |].
      apply String.eqb_eq. exact E.
    + exists tail. split; [| exact Hspace].
      change (String c (trim_end rest) ++ tail) with (String c (trim_end rest ++ tail)).
      f_equal. exact Htail.
Qed.

Lemma trim_end_idem s : trim_end (trim_end s) = trim_end s.
Proof.
  induction s as [| c rest IH]; [reflexivity |].
  cbn [trim_end]. destruct (only_space (String c rest)) eqn:E; [reflexivity |].
  cbn [trim_end]. destruct (only_space (String c (trim_end rest))) eqn:E2.
  - exfalso. destruct (trim_end_tail rest) as (tail & Htail & Hspace).
    apply String.eqb_eq in E2.
    pose proof (trim_start_app _ tail E2) as Happ.
    change (String c (trim_end rest) ++ tail)
      with (String c (trim_end rest ++ tail)) in Happ.
    rewrite <- Htail, Hspace in Happ.
    unfold only_space in E. rewrite Happ in E. discriminate.
  - rewrite IH. reflexivity.
Qed.

Lemma trim_end_no_space s : skip_space s = None -> skip_space (trim_end s) = None.
Proof.
  intros Hs. destruct (trim_end_tail s) as (tail & Htail & _).
  destruct (skip_space (trim_end s)) as [rest |] eqn:Hskip; [| reflexivity].
  apply (skip_space_app _ _ tail) in Hskip. rewrite <- Htail in Hskip. congruence.
Qed.

Lemma trim_idem s : trim (trim s) = trim s.
Proof.
  unfold trim.
  rewrite (trim_start_fixed (trim_end (trim_start s)))
    by apply trim_end_no_space, trim_start_no_space.
  apply trim_end_idem.
Qed.

Lemma validate_trim_index c : validate (trim_index c) = validate c.
Proof.
  destruct c as [| index | index queryBody]; cbn [trim_index validate];
    unfold trimmed_min1; rewrite ?trim_idem; reflexivity.
Qed.

(** White space around the index name of an invocation never matters:
    the invocation behaves as the one with the trimmed name, for all the
    white space [String.prototype.trim] removes. *)
Theorem surrounding_space_is_ignored env c w :
  call_tool env c w = call_tool env (trim_index c) w.
Proof. unfold call_tool. rewrite validate_trim_index. reflexivity. Qed.

(** ** The trace of an invocation *)

Lemma list_indices_try_run env now w :
  list_indices_try env now w
  = match cat_indices env with
    | inl e =>
        (inl e, {| cachedIndices := cachedIndices w;
                   cacheTimestamp := cacheTimestamp w;
                   events := (events w ++ [CallCatIndices])%list |})
    | inr response =>
        (inr (listing EmptyString (List.map project response)),
         {| cachedIndices := Some (List.map project response);
            cacheTimestamp := Some now;
            events := (events w ++ [CallCatIndices])%list |})
    end.
Proof.
  unfold list_indices_try. rewrite await_run. cbv zeta.
  destruct (cat_indices env) as [e | response]; [reflexivity |].
  unfold bind, set_cachedIndices, set_cacheTimestamp.
  cbn [cachedIndices cacheTimestamp events].
  rewrite (indices_result_run _ _ (List.map project response)) by reflexivity.
  reflexivity.
Qed.

Lemma get_mappings_try_run env index w :
  get_mappings_try env index w
  = (match indices_getMapping env index with
     | inl e => inl e
     | inr mappingResponse =>
         match JSON_stringify_2
                 (js_or (opt_chain (default JUndefined (mappingResponse !! index))
                           "mappings") (JObj [])) with
         | inl e => inl e
         | inr dump =>
             inr {| content :=
                      [ text_fragment ("Mappings for index: " ++ index);
                        text_fragment ("Mappings for index " ++ index ++ ": "
                                         ++ template_text dump) ] |}
         end
     end,
     {| cachedIndices := cachedIndices w;
        cacheTimestamp := cacheTimestamp w;
        events := (events w ++ [CallGetMapping index])%list |}).
Proof.
  unfold get_mappings_try. rewrite await_run. cbv zeta.
  destruct (indices_getMapping env index) as [e | mappingResponse]; [reflexivity |].
  unfold bind, lift. destruct (JSON_stringify_2 _); reflexivity.
Qed.

Lemma try_block_events env args w :
  events (snd (try_block env args w)) = (events w ++ [call_of args])%list.
Proof.
  destruct args as [| index | index queryBody]; cbn [try_block call_of].
  - rewrite list_indices_try_run. destruct (cat_indices env); reflexivity.
  - rewrite get_mappings_try_run. reflexivity.
  - rewrite search_try_run. cbv zeta. destruct (es_search env _); reflexivity.
Qed.

(** The handler of an invocation that enters its [try] block, in one
    equation: the result of the block, or the error result and the line
    of the [catch] clause. *)
Lemma handler_entered env args w :
  enters_try env args w = true ->
  handler env args w
  = match try_block env args w with
    | (inr r, w1) => (inr r, w1)
    | (inl e, w1) =>
        (inr (error_result (caught_text args e)),
         {| cachedIndices := cachedIndices w1;
            cacheTimestamp := cacheTimestamp w1;
            events := (events w1 ++ [ConsoleError (failure_line args e)])%list |})
    end.
Proof.
  intros Hin. destruct args as [| index | index queryBody];
    cbn [handler try_block caught_text failure_line enters_try] in *.
  - unfold list_indices. unfold bind at 1 2, get_cachedIndices, get_cacheTimestamp.
    apply negb_true_iff in Hin. rewrite Hin. unfold try_catch.
    destruct (list_indices_try _ _ _) as [[e | r] w1]; reflexivity.
  - unfold get_mappings, try_catch.
    destruct (get_mappings_try _ _ _) as [[e | r] w1]; reflexivity.
  - unfold search, try_catch.
    destruct (search_try _ _ _ _) as [[e | r] w1]; reflexivity.
Qed.

Lemma handler_not_entered env args w :
  enters_try env args w = false ->
  exists l, cachedIndices w = Some l
            /\ handler env args w = (inr (listing " (cached)" l), w).
Proof.
  destruct args as [| index | index queryBody]; cbn [enters_try]; try discriminate.
  intros Hin. apply negb_false_iff in Hin.
  destruct (cache_valid_some _ _ _ Hin) as [l Hl]. exists l. split; [exact Hl |].
  cbn [handler]. unfold list_indices.
  unfold bind at 1 2, get_cachedIndices, get_cacheTimestamp. rewrite Hin.
  apply indices_result_run, Hl.
Qed.

(** The events of every invocation, exactly: nothing when the schema turns
    the arguments down or the listing comes from the cache; otherwise the
    one call of the tool to Elasticsearch, followed by one [console.error]
    line when, and only when, the [try] block threw. *)
Theorem invocation_trace env c w :
  events (snd (call_tool env c w))
  = (events w
     ++ match validate c with
        | inl _ => []
        | inr args => invocation_events env args w
        end)%list.
Proof.
  unfold call_tool. destruct (validate c) as [issues | args].
  - cbn [snd]. rewrite app_nil_r. reflexivity.
  - unfold invocation_events, thrown_inside.
    destruct (enters_try env args w) eqn:Hin.
    + rewrite (handler_entered _ _ _ Hin).
      pose proof (try_block_events env args w) as Hev.
      destruct (try_block env args w) as [[e | r] w1]; cbn [snd events] in *.
      * rewrite Hev, <- app_assoc. reflexivity.
      * exact Hev.
    + destruct (handler_not_entered _ _ _ Hin) as (l & _ & ->).
      cbn [snd]. rewrite app_nil_r. reflexivity.
Qed.

(** ** What touches the cache *)

(** An invocation leaves both cache variables as they were, unless it is
    a [list_indices] call that finds the cache invalid and whose fetch
    succeeds; then they hold the projection of the response and the time
    of the call. *)
Lemma call_tool_cache env c w :
  (cachedIndices (snd (call_tool env c w)) = cachedIndices w
   /\ cacheTimestamp (snd (call_tool env c w)) = cacheTimestamp w)
  \/ (c = Tool_list_indices
      /\ cache_valid (Date_now env) (cachedIndices w) (cacheTimestamp w) = false
      /\ exists response,
           cat_indices env = inr response
           /\ cachedIndices (snd (call_tool env c w)) = Some (List.map project response)
           /\ cacheTimestamp (snd (call_tool env c w)) = Some (Date_now env)).
Proof.
  unfold call_tool. destruct (validate c) as [issues | args] eqn:Hv; [left; auto |].
  destruct (enters_try env args w) eqn:Hin.
  - rewrite (handler_entered _ _ _ Hin).
    destruct args as [| index | index queryBody]; cbn [try_block].
    + assert (c = Tool_list_indices) as ->
        by (destruct c as [| i | i q]; cbn [validate] in Hv;
            [reflexivity | destruct (trimmed_min1 _ i); discriminate
            | destruct (trimmed_min1 _ i), (queryBody_schema q); discriminate]).
      cbn [enters_try] in Hin. apply negb_true_iff in Hin.
      rewrite list_indices_try_run.
      destruct (cat_indices env) as [e | response]; [left; auto |].
      right. split; [reflexivity |]. split; [exact Hin |]. eauto.
    + rewrite get_mappings_try_run. left.
      destruct (indices_getMapping env index) as [e | m]; [auto |].
      destruct (JSON_stringify_2 _); auto.
    + rewrite search_try_run. cbv zeta. left.
      destruct (es_search env _) as [e | result]; [auto |].
      destruct (stringify_hits _); auto.
  - destruct (handler_not_entered _ _ _ Hin) as (l & _ & ->). left. auto.
Qed.

(** [get_mappings] and [search] never write the cache, whatever their
    arguments and however they end. *)
Theorem other_tools_leave_cache_alone env c w :
  c <> Tool_list_indices ->
  cachedIndices (snd (call_tool env c w)) = cachedIndices w
  /\ cacheTimestamp (snd (call_tool env c w)) = cacheTimestamp w.
Proof.
  intros Hc. destruct (call_tool_cache env c w) as [H | (Heq & _)];
    [exact H | contradiction].
Qed.

Lemma other_tools_leave_cache_alone_witness :
  Tool_search "logs" ∅ <> Tool_list_indices
  /\ cachedIndices (snd (call_tool (Sample.up 5) (Tool_search "logs" ∅)
                           (Sample.cached_at 1)))
     = cachedIndices (Sample.cached_at 1)
  /\ cacheTimestamp (snd (call_tool (Sample.up 5) (Tool_search "logs" ∅)
                            (Sample.cached_at 1)))
     = cacheTimestamp (Sample.cached_at 1).
Proof.
  assert (H : Tool_search "logs" ∅ <> Tool_list_indices) by discriminate.
  split; [exact H |].
  exact (other_tools_leave_cache_alone (Sample.up 5) (Tool_search "logs" ∅)
           (Sample.cached_at 1) H).
Defined.

Lemma call_tool_paired env c w :
  cache_paired w -> cache_paired (snd (call_tool env c w)).
Proof.
  unfold cache_paired. intros Hw.
  destruct (call_tool_cache env c w) as [[-> ->] | (_ & _ & r & _ & -> & ->)];
    [exact Hw |].
  split; intros _; eauto.
Qed.

Lemma call_tools_cons env c rest w :
  call_tools ((env, c) :: rest) w
  = (fst (call_tool env c w) :: fst (call_tools rest (snd (call_tool env c w))),
     snd (call_tools rest (snd (call_tool env c w)))).
Proof.
  cbn [call_tools]. destruct (call_tool env c w) as [o w1]. cbn [fst snd].
  destruct (call_tools rest w1); reflexivity.
Qed.

Lemma call_tools_paired calls w :
  cache_paired w -> cache_paired (snd (call_tools calls w)).
Proof.
  revert w. induction calls as [| [env c] rest IH]; intros w Hw; [exact Hw |].
  rewrite call_tools_cons. cbn [snd]. apply IH, call_tool_paired, Hw.
Qed.

(** In every state a freshly started process can reach, whatever the
    invocations and however they ended, [cachedIndices] and
    [cacheTimestamp] are both set or both unset. *)
Theorem cache_variables_are_paired (calls : list (Env * ToolCall)) :
  cache_paired (snd (call_tools calls initial_world)).
Proof.
  apply call_tools_paired. unfold cache_paired, initial_world; cbn.
  split; intros [x Hx]; discriminate.
Qed.

(** ** The cached listing among other invocations *)

Lemma call_tool_in_window env c w l ts :
  cachedIndices w = Some l -> cacheTimestamp w = Some ts -> ts <> 0 ->
  Date_now env - ts < CACHE_DURATION ->
  cachedIndices (snd (call_tool env c w)) = Some l
  /\ cacheTimestamp (snd (call_tool env c w)) = Some ts
  /\ (c = Tool_list_indices ->
      fst (call_tool env c w) = Returned (listing " (cached)" l)).
Proof.
  intros Hc Ht Hz Hlt. split; [| split].
  - destruct (call_tool_cache env c w) as [[-> _] | (-> & Hv & _)]; [exact Hc |].
    unfold call_tool in *. cbn [validate handler] in *.
    rewrite (list_indices_hit env w l ts Hc Ht Hz Hlt). exact Hc.
  - destruct (call_tool_cache env c w) as [[_ ->] | (-> & Hv & _)]; [exact Ht |].
    unfold call_tool in *. cbn [validate handler] in *.
    rewrite (list_indices_hit env w l ts Hc Ht Hz Hlt). exact Ht.
  - intros ->. unfold call_tool. cbn [validate handler].
    rewrite (list_indices_hit env w l ts Hc Ht Hz Hlt). reflexivity.
Qed.

(** Once the cache holds a listing taken at a time other than 0, any run
    of invocations inside the window, of any tools, with any arguments
    and any backend answers, leaves the cache as it is, and each
    [list_indices] call among them returns that listing marked
    [(cached)]. *)
Theorem cached_listing_survives_other_calls
    (calls : list (Env * ToolCall)) w l ts :
  cachedIndices w = Some l -> cacheTimestamp w = Some ts -> ts <> 0 ->
  Forall (fun call => Date_now (fst call) - ts < CACHE_DURATION) calls ->
  cachedIndices (snd (call_tools calls w)) = Some l
  /\ cacheTimestamp (snd (call_tools calls w)) = Some ts
  /\ Forall2 (fun call o =>
                snd call = Tool_list_indices ->
                o = Returned (listing " (cached)" l))
       calls (fst (call_tools calls w)).
Proof.
  intros Hc Ht Hz Hall. revert w Hc Ht.
  induction Hall as [| [env c] rest Hlt _ IH]; intros w Hc Ht.
  - cbn. auto.
  - rewrite call_tools_cons. cbn [fst snd] in *.
    destruct (call_tool_in_window env c w l ts Hc Ht Hz Hlt) as (Hc1 & Ht1 & Ho).
    destruct (IH _ Hc1 Ht1) as (Hc2 & Ht2 & Hos).
    split; [exact Hc2 |]. split; [exact Ht2 |]. constructor; assumption.
Qed.

Lemma cached_listing_survives_other_calls_witness :
  cachedIndices (Sample.cached_at 1000) = Some [Sample.logs_summary]
  /\ cacheTimestamp (Sample.cached_at 1000) = Some 1000
  /\ 1000 <> 0
  /\ Forall (fun call => Date_now (fst call) - 1000 < CACHE_DURATION)
       [(Sample.down 2000, Tool_search "logs" ∅);
        (Sample.down 3000, Tool_list_indices)]
  /\ cachedIndices (snd (call_tools
         [(Sample.down 2000, Tool_search "logs" ∅);
          (Sample.down 3000, Tool_list_indices)] (Sample.cached_at 1000)))
     = Some [Sample.logs_summary]
  /\ cacheTimestamp (snd (call_tools
         [(Sample.down 2000, Tool_search "logs" ∅);
          (Sample.down 3000, Tool_list_indices)] (Sample.cached_at 1000)))
     = Some 1000
  /\ Forall2 (fun call o =>
                snd call = Tool_list_indices ->
                o = Returned (listing " (cached)" [Sample.logs_summary]))
       [(Sample.down 2000, Tool_search "logs" ∅);
        (Sample.down 3000, Tool_list_indices)]
       (fst (call_tools
         [(Sample.down 2000, Tool_search "logs" ∅);
          (Sample.down 3000, Tool_list_indices)] (Sample.cached_at 1000))).
Proof.
  assert (H1 : cachedIndices (Sample.cached_at 1000) = Some [Sample.logs_summary])
    by reflexivity.
  assert (H2 : cacheTimestamp (Sample.cached_at 1000) = Some 1000) by reflexivity.
  assert (H3 : 1000 <> 0) by lia.
  assert (H4 : Forall (fun call => Date_now (fst call) - 1000 < CACHE_DURATION)
                 [(Sample.down 2000, Tool_search "logs" ∅);
                  (Sample.down 3000, Tool_list_indices)])
    by (repeat constructor; cbn; unfold CACHE_DURATION; lia).
  split; [exact H1 | split; [exact H2 | split; [exact H3 | split; [exact H4 |]]]].
  exact (cached_listing_survives_other_calls _ _ _ _ H1 H2 H3 H4).
Defined.

Lemma refresh_then_cached_run_witness :
  expired_or_absent 5 initial_world
  /\ cat_indices (Sample.up 5) = inr [Sample.logs]
  /\ 5 <> 0
  /\ Forall (fun env' => Date_now env' - Date_now (Sample.up 5) < CACHE_DURATION)
       [Sample.down 600004; Sample.up 3]
  /\ call_tools [(Sample.up 5, Tool_list_indices);
                 (Sample.down 600004, Tool_list_indices);
                 (Sample.up 3, Tool_list_indices)] initial_world
     = ([Returned (listing EmptyString [Sample.logs_summary]);
         Returned (listing " (cached)" [Sample.logs_summary]);
         Returned (listing " (cached)" [Sample.logs_summary])],
        {| cachedIndices := Some [Sample.logs_summary];
           cacheTimestamp := Some 5;
           events := [CallCatIndices] |}).
Proof.
  assert (H1 : expired_or_absent 5 initial_world) by exact I.
  assert (H2 : cat_indices (Sample.up 5) = inr [Sample.logs]) by reflexivity.
  assert (H3 : 5 <> 0) by lia.
  assert (H4 : Forall (fun env' => Date_now env' - Date_now (Sample.up 5)
                                    < CACHE_DURATION)
                 [Sample.down 600004; Sample.up 3])
    by (repeat constructor; cbn; unfold CACHE_DURATION; lia).
  split; [exact H1 | split; [exact H2 | split; [exact H3 | split; [exact H4 |]]]].
  exact (refresh_then_cached_run (Sample.up 5)
           [Sample.down 600004; Sample.up 3] initial_world [Sample.logs]
           H1 H2 H3 H4).
Defined.

(** A failed refresh is not remembered: the next [list_indices] call, at
    the same time or later, fetches again, and when that fetch succeeds it
    returns and caches the new listing. *)
Theorem failed_refresh_is_retried env env' w e response :
  expired_or_absent (Date_now env) w ->
  cat_indices env = inl e ->
  Date_now env <= Date_now env' ->
  cat_indices env' = inr response ->
  call_tools [(env, Tool_list_indices); (env', Tool_list_indices)] w
  = ([Returned (error_result (thrown_to_string e));
      Returned (listing EmptyString (List.map project response))],
     {| cachedIndices := Some (List.map project response);
        cacheTimestamp := Some (Date_now env');
        events := (events w
                   ++ [CallCatIndices;
                       ConsoleError ("Failed to list indices: " ++ thrown_to_string e);
                       CallCatIndices])%list |}).
Proof.
  intros Hexp Hcat Hle Hcat'. cbn [call_tools]. unfold call_tool.
  cbn [validate handler].
  rewrite (list_indices_failure env w e (expired_not_valid _ _ Hexp) Hcat).
  rewrite (list_indices_refresh env' _ response); [| | exact Hcat'].
  - cbn [events]. rewrite <- app_assoc. reflexivity.
  - apply expired_not_valid. unfold expired_or_absent in *.
    cbn [cachedIndices cacheTimestamp].
    destruct (cachedIndices w); [| exact I].
    destruct (cacheTimestamp w); [lia | exact I].
Qed.

Lemma failed_refresh_is_retried_witness :
  expired_or_absent 601000 (Sample.cached_at 1000)
  /\ cat_indices (Sample.down 601000) = inl Sample.refused
  /\ Date_now (Sample.down 601000) <= Date_now (Sample.up 601001)
  /\ cat_indices (Sample.up 601001) = inr [Sample.logs]
  /\ call_tools [(Sample.down 601000, Tool_list_indices);
                 (Sample.up 601001, Tool_list_indices)] (Sample.cached_at 1000)
     = ([Returned (error_result (thrown_to_string Sample.refused));
         Returned (listing EmptyString [Sample.logs_summary])],
        {| cachedIndices := Some [Sample.logs_summary];
           cacheTimestamp := Some 601001;
           events := [CallCatIndices; CallCatIndices;
                      ConsoleError ("Failed to list indices: "
                                      ++ thrown_to_string Sample.refused);
                      CallCatIndices] |}).
Proof.
  assert (H1 : expired_or_absent 601000 (Sample.cached_at 1000))
    by (cbn; unfold CACHE_DURATION; lia).
  assert (H2 : cat_indices (Sample.down 601000) = inl Sample.refused) by reflexivity.
  assert (H3 : Date_now (Sample.down 601000) <= Date_now (Sample.up 601001))
    by (cbn; lia).
  assert (H4 : cat_indices (Sample.up 601001) = inr [Sample.logs]) by reflexivity.
  split; [exact H1 | split; [exact H2 | split; [exact H3 | split; [exact H4 |]]]].
  exact (failed_refresh_is_retried (Sample.down 601000) (Sample.up 601001)
           (Sample.cached_at 1000) Sample.refused [Sample.logs] H1 H2 H3 H4).
Defined.

(** An empty catalog is a listing like any other: it is reported as
    [Found 0 indices] with the dump [[]], it is cached (an empty array is
    truthy), and calls inside the window are answered from it. *)
Theorem empty_catalog_is_cached env env' w :
  expired_or_absent (Date_now env) w ->
  cat_indices env = inr [] ->
  Date_now env <> 0 ->
  Date_now env' - Date_now env < CACHE_DURATION ->
  call_tools [(env, Tool_list_indices); (env', Tool_list_indices)] w
  = ([Returned {| content := [text_fragment "Found 0 indices"; text_fragment "[]"] |};
      Returned {| content := [text_fragment "Found 0 indices (cached)";
                              text_fragment "[]"] |}],
     {| cachedIndices := Some [];
        cacheTimestamp := Some (Date_now env);
        events := (events w ++ [CallCatIndices])%list |}).
Proof.
  intros Hexp Hcat Hz Hlt. cbn [call_tools]. unfold call_tool.
  cbn [validate handler].
  rewrite (list_indices_refresh env w [] (expired_not_valid _ _ Hexp) Hcat).
  rewrite (list_indices_hit env' _ [] (Date_now env))
    by (reflexivity || assumption).
  reflexivity.
Qed.

Lemma empty_catalog_is_cached_witness :
  let quiet now :=
    {| Date_now := now; cat_indices := inr [];
       indices_getMapping := fun _ => inr ∅;
       es_search := fun _ => inl Sample.refused |} in
  expired_or_absent (Date_now (quiet 7)) initial_world
  /\ cat_indices (quiet 7) = inr []
  /\ Date_now (quiet 7) <> 0
  /\ Date_now (quiet 9) - Date_now (quiet 7) < CACHE_DURATION
  /\ call_tools [(quiet 7, Tool_list_indices); (quiet 9, Tool_list_indices)]
       initial_world
     = ([Returned {| content := [text_fragment "Found 0 indices";
                                 text_fragment "[]"] |};
         Returned {| content := [text_fragment "Found 0 indices (cached)";
                                 text_fragment "[]"] |}],
        {| cachedIndices := Some [];
           cacheTimestamp := Some (Date_now (quiet 7));
           events := (events initial_world ++ [CallCatIndices])%list |}).
Proof.
  cbv zeta.
  split; [exact I | split; [reflexivity | split; [cbn; lia | split;
    [cbn; unfold CACHE_DURATION; lia |]]]].
  apply empty_catalog_is_cached;
    [exact I | reflexivity | cbn; lia | cbn; unfold CACHE_DURATION; lia].
Defined.

(** ** [get_mappings] and the wording of failures *)

(** When the response has mapping data under the requested name,
    [get_mappings] returns the header and the data as indented JSON, after
    one [getMapping] call for the trimmed name. *)
Theorem get_mappings_prints_mappings env index args w mappingResponse entry dump :
  validate (Tool_get_mappings index) = inr args ->
  indices_getMapping env (trim index) = inr mappingResponse ->
  mappingResponse !! trim index = Some entry ->
  truthy (opt_chain entry "mappings") = true ->
  JSON_stringify_2 (opt_chain entry "mappings") = inr (Some dump) ->
  call_tool env (Tool_get_mappings index) w
  = (Returned
       {| content :=
            [ text_fragment ("Mappings for index: " ++ trim index);
              text_fragment ("Mappings for index " ++ trim index ++ ": " ++ dump) ] |},
     {| cachedIndices := cachedIndices w;
        cacheTimestamp := cacheTimestamp w;
        events := (events w ++ [CallGetMapping (trim index)])%list |}).
Proof.
  intros Hv Hes Hentry Htruthy Hdump.
  destruct (validate_get_mappings_ok _ _ Hv) as (-> & _).
  unfold call_tool. rewrite Hv. cbn [handler].
  unfold get_mappings, try_catch. rewrite get_mappings_try_run, Hes, Hentry.
  cbn [default from_option id]. unfold js_or. rewrite Htruthy, Hdump. reflexivity.
Qed.

Lemma get_mappings_prints_mappings_witness :
  validate (Tool_get_mappings "logs ") = inr (Tool_get_mappings "logs")
  /\ indices_getMapping (Sample2.odd 5) (trim "logs ")
     = inr {["logs" := Sample2.logs_mapping]}
  /\ ({["logs" := Sample2.logs_mapping]} : gmap string JValue) !! trim "logs "
     = Some Sample2.logs_mapping
  /\ truthy (opt_chain Sample2.logs_mapping "mappings") = true
  /\ JSON_stringify_2 (opt_chain Sample2.logs_mapping "mappings")
     = inr (Some ("{" ++ newline ++ "  " ++ dquote ++ "dynamic" ++ dquote
                    ++ ": true" ++ newline ++ "}"))
  /\ call_tool (Sample2.odd 5) (Tool_get_mappings "logs ") initial_world
     = (Returned
          {| content :=
               [ text_fragment ("Mappings for index: " ++ trim "logs ");
                 text_fragment ("Mappings for index " ++ trim "logs " ++ ": "
                                  ++ ("{" ++ newline ++ "  " ++ dquote ++ "dynamic"
                                        ++ dquote ++ ": true" ++ newline ++ "}")) ] |},
        {| cachedIndices := None;
           cacheTimestamp := None;
           events := ([] ++ [CallGetMapping (trim "logs ")])%list |}).
Proof.
  assert (H1 : validate (Tool_get_mappings "logs ") = inr (Tool_get_mappings "logs"))
    by reflexivity.
  assert (H2 : indices_getMapping (Sample2.odd 5) (trim "logs ")
               = inr {["logs" := Sample2.logs_mapping]}) by reflexivity.
  assert (H3 : ({["logs" := Sample2.logs_mapping]} : gmap string JValue)
                 !! trim "logs " = Some Sample2.logs_mapping)
    by (vm_compute; reflexivity).
  assert (H4 : truthy (opt_chain Sample2.logs_mapping "mappings") = true)
    by reflexivity.
  assert (H5 : JSON_stringify_2 (opt_chain Sample2.logs_mapping "mappings")
               = inr (Some ("{" ++ newline ++ "  " ++ dquote ++ "dynamic" ++ dquote
                              ++ ": true" ++ newline ++ "}")))
    by reflexivity.
  split; [exact H1 | split; [exact H2 | split; [exact H3 | split; [exact H4 |
    split; [exact H5 |]]]]].
  exact (get_mappings_prints_mappings (Sample2.odd 5) "logs " _ initial_world
           _ _ _ H1 H2 H3 H4 H5).
Defined.

Lemma Error_toString_both name message :
  name <> EmptyString -> message <> EmptyString ->
  Error_toString name message = name ++ ": " ++ message.
Proof.
  intros Hn Hm. unfold Error_toString.
  apply String.eqb_neq in Hn, Hm. rewrite Hn, Hm. reflexivity.
Qed.

(** The same rejection by Elasticsearch is worded differently by the
    tools: [search] reports and logs the error's name and message
    ([`${error}`]), [get_mappings] only its message. Both log exactly one
    line after their one call. *)
Theorem backend_errors_are_worded_per_tool
    env index queryBody args1 args2 w name message :
  validate (Tool_search index queryBody) = inr args1 ->
  validate (Tool_get_mappings index) = inr args2 ->
  es_search env (searchRequest (trim index) (record_parse queryBody))
  = inl (ErrorInstance name message) ->
  indices_getMapping env (trim index) = inl (ErrorInstance name message) ->
  name <> EmptyString -> message <> EmptyString ->
  call_tool env (Tool_search index queryBody) w
  = (Returned {| content := [text_fragment ("Error: " ++ name ++ ": " ++ message)] |},
     {| cachedIndices := cachedIndices w;
        cacheTimestamp := cacheTimestamp w;
        events := (events w
                   ++ [CallSearch (searchRequest (trim index) (record_parse queryBody));
                       ConsoleError ("Search failed: " ++ name ++ ": " ++ message)])%list |})
  /\ call_tool env (Tool_get_mappings index) w
     = (Returned {| content := [text_fragment ("Error: " ++ message)] |},
        {| cachedIndices := cachedIndices w;
           cacheTimestamp := cacheTimestamp w;
           events := (events w
                      ++ [CallGetMapping (trim index);
                          ConsoleError ("Failed to get mappings: " ++ message)])%list |}).
Proof.
  intros Hv1 Hv2 Hs Hm Hname Hmessage.
  destruct (validate_search_ok _ _ _ Hv1) as (-> & _ & _).
  destruct (validate_get_mappings_ok _ _ Hv2) as (-> & _).
  unfold call_tool. rewrite Hv1, Hv2. cbn [handler]. split.
  - unfold search, try_catch. rewrite search_try_run. cbv zeta. rewrite Hs.
    rewrite search_catch_run. cbn [thrown_to_string cachedIndices cacheTimestamp events].
    rewrite (Error_toString_both _ _ Hname Hmessage), <- app_assoc. reflexivity.
  - unfold get_mappings, try_catch. rewrite get_mappings_try_run, Hm.
    rewrite get_mappings_catch_run. cbn [thrown_message cachedIndices cacheTimestamp events].
    rewrite <- app_assoc. reflexivity.
Qed.

Lemma backend_errors_are_worded_per_tool_witness :
  validate (Tool_search "logs" ∅) = inr (Tool_search "logs" ∅)
  /\ validate (Tool_get_mappings "logs") = inr (Tool_get_mappings "logs")
  /\ es_search (Sample.down 5) (searchRequest (trim "logs") (record_parse ∅))
     = inl Sample.refused
  /\ indices_getMapping (Sample.down 5) (trim "logs") = inl Sample.refused
  /\ "ConnectionError" <> EmptyString
  /\ "connect ECONNREFUSED 127.0.0.1:9200" <> EmptyString
  /\ fst (call_tool (Sample.down 5) (Tool_search "logs" ∅) initial_world)
     = Returned {| content := [text_fragment
         "Error: ConnectionError: connect ECONNREFUSED 127.0.0.1:9200"] |}
  /\ fst (call_tool (Sample.down 5) (Tool_get_mappings "logs") initial_world)
     = Returned {| content := [text_fragment
         "Error: connect ECONNREFUSED 127.0.0.1:9200"] |}.
Proof.
  assert (H1 : validate (Tool_search "logs" ∅) = inr (Tool_search "logs" ∅))
    by (vm_compute; reflexivity).
  assert (H2 : validate (Tool_get_mappings "logs") = inr (Tool_get_mappings "logs"))
    by reflexivity.
  assert (H3 : es_search (Sample.down 5) (searchRequest (trim "logs") (record_parse ∅))
               = inl Sample.refused) by reflexivity.
  assert (H4 : indices_getMapping (Sample.down 5) (trim "logs") = inl Sample.refused)
    by reflexivity.
  assert (H5 : "ConnectionError" <> EmptyString) by discriminate.
  assert (H6 : "connect ECONNREFUSED 127.0.0.1:9200" <> EmptyString) by discriminate.
  split; [exact H1 | split; [exact H2 | split; [exact H3 | split; [exact H4 |
    split; [exact H5 | split; [exact H6 |]]]]]].
  destruct (backend_errors_are_worded_per_tool (Sample.down 5) "logs" ∅ _ _
              initial_world _ _ H1 H2 H3 H4 H5 H6) as [Hs Hg].
  rewrite Hs, Hg. split; reflexivity.
Defined.

(** ** Hits that cannot be serialized *)

Lemma stringify_hits_throws hits hit e :
  In hit hits -> JSON_stringify_2 (ES._source hit) = inl e ->
  exists e', stringify_hits hits = inl e'.
Proof.
  intros Hin He. induction hits as [| h rest IH]; [contradiction |].
  cbn [stringify_hits]. destruct Hin as [-> | Hin].
  - rewrite He. eauto.
  - destruct (JSON_stringify_2 (ES._source h)); [eauto |].
    destruct (IH Hin) as [e' ->]. eauto.
Qed.

(** One hit whose source [JSON.stringify] cannot serialize fails the whole
    search: although Elasticsearch answered, the result is the single
    error fragment, no hit is returned, and the failure is logged once. *)
Theorem unserializable_hit_fails_whole_search
    env index queryBody args w result hit e :
  validate (Tool_search index queryBody) = inr args ->
  es_search env (searchRequest (trim index) (record_parse queryBody)) = inr result ->
  In hit (ES.hits (ES.response_hits result)) ->
  JSON_stringify_2 (ES._source hit) = inl e ->
  exists e',
    call_tool env (Tool_search index queryBody) w
    = (Returned {| content := [text_fragment ("Error: " ++ thrown_to_string e')] |},
       {| cachedIndices := cachedIndices w;
          cacheTimestamp := cacheTimestamp w;
          events := (events w
                     ++ [CallSearch (searchRequest (trim index) (record_parse queryBody));
                         ConsoleError ("Search failed: " ++ thrown_to_string e')])%list |}).
Proof.
  intros Hv Hes Hin He. destruct (validate_search_ok _ _ _ Hv) as (-> & _ & _).
  destruct (stringify_hits_throws _ _ _ Hin He) as [e' He'].
  exists e'. unfold call_tool. rewrite Hv. cbn [handler].
  unfold search, try_catch. rewrite search_try_run. cbv zeta. rewrite Hes, He'.
  rewrite search_catch_run. cbn [cachedIndices cacheTimestamp events].
  rewrite <- app_assoc. reflexivity.
Qed.

Lemma unserializable_hit_fails_whole_search_witness :
  validate (Tool_search "logs" ∅) = inr (Tool_search "logs" ∅)
  /\ es_search (Sample2.odd 5) (searchRequest (trim "logs") (record_parse ∅))
     = inr Sample2.bigint_hits
  /\ In {| ES._id := "2"; ES._source := JObj [("n", JBigInt 7)] |}
       (ES.hits (ES.response_hits Sample2.bigint_hits))
  /\ JSON_stringify_2 (JObj [("n", JBigInt 7)])
     = inl (ErrorInstance "TypeError" "Do not know how to serialize a BigInt")
  /\ exists e',
       fst (call_tool (Sample2.odd 5) (Tool_search "logs" ∅) initial_world)
       = Returned {| content := [text_fragment ("Error: " ++ thrown_to_string e')] |}.
Proof.
  assert (H1 : validate (Tool_search "logs" ∅) = inr (Tool_search "logs" ∅))
    by (vm_compute; reflexivity).
  assert (H2 : es_search (Sample2.odd 5) (searchRequest (trim "logs") (record_parse ∅))
               = inr Sample2.bigint_hits) by reflexivity.
  assert (H3 : In {| ES._id := "2"; ES._source := JObj [("n", JBigInt 7)] |}
                 (ES.hits (ES.response_hits Sample2.bigint_hits)))
    by (right; left; reflexivity).
  assert (H4 : JSON_stringify_2
                 (ES._source {| ES._id := "2"; ES._source := JObj [("n", JBigInt 7)] |})
               = inl (ErrorInstance "TypeError" "Do not know how to serialize a BigInt"))
    by reflexivity.
  split; [exact H1 | split; [exact H2 | split; [exact H3 | split; [exact H4 |]]]].
  destruct (unserializable_hit_fails_whole_search (Sample2.odd 5) "logs" ∅ _
              initial_world _ _ _ H1 H2 H3 H4) as [e' He'].
  exists e'. rewrite He'. reflexivity.
Defined.

(** ** The keys of the request envelope *)

(** The request envelope holds every key of the query body and, beyond
    them, only [index] and [highlight]. *)
Theorem searchRequest_keys index (queryBody : gmap string JValue) :
  dom (searchRequest index queryBody)
  = dom queryBody ∪ {["index"; "highlight"]}.
Proof.
  unfold searchRequest. rewrite dom_insert_L, dom_union_L, dom_singleton_L.
  apply set_eq. intros k. rewrite !elem_of_union, !elem_of_singleton. tauto.
Qed.

(** ** What the [queryBody] schema accepts *)

Lemma JValue_nested_ind (P : JValue -> Prop) :
  P JUndefined -> P JNull -> (forall b, P (JBool b)) -> (forall n, P (JNum n)) ->
  (forall n, P (JBigInt n)) -> (forall s, P (JStr s)) ->
  (forall items, Forall P items -> P (JArr items)) ->
  (forall props, Forall (fun kv => P (snd kv)) props -> P (JObj props)) ->
  forall v, P v.
Proof.
  intros Hu Hn Hb Hnum Hbig Hs Ha Ho. fix IH 1.
  intros [| | b | n | n | s | items | props];
    [exact Hu | exact Hn | apply Hb | apply Hnum | apply Hbig | apply Hs | |].
  - apply Ha. revert items. fix IHl 1. intros [| x rest]; constructor.
    + apply IH.
    + apply IHl.
  - apply Ho. revert props. fix IHl 1. intros [| [k x] rest]; constructor.
    + apply IH.
    + apply IHl.
Qed.

Lemma serialize_elements_throws ser (l : list JValue) :
  throws (serialize_elements ser l) = existsb (fun x => throws (ser x)) l.
Proof.
  induction l as [| x rest IH]; [reflexivity |].
  cbn [serialize_elements existsb]. destruct (ser x) as [e | o]; [reflexivity |].
  cbn [throws orb]. rewrite <- IH. destruct (serialize_elements ser rest); reflexivity.
Qed.

Lemma serialize_members_throws_eq ser colon (l : list (string * JValue)) :
  throws (serialize_members ser colon l)
  = existsb (fun kv => throws (ser (snd kv))) l.
Proof.
  induction l as [| [k x] rest IH]; [reflexivity |].
  cbn [serialize_members existsb snd]. destruct (ser x) as [e | o]; [reflexivity |].
  cbn [throws orb]. rewrite <- IH.
  destruct (serialize_members ser colon rest); reflexivity.
Qed.

Lemma existsb_Forall_ext {A} (f g : A -> bool) (l : list A) :
  Forall (fun x => f x = g x) l -> existsb f l = existsb g l.
Proof.
  induction 1 as [| x rest Hx _ IH]; [reflexivity |].
  cbn [existsb]. rewrite Hx, IH. reflexivity.
Qed.

(** [JSON.stringify] throws on a value exactly when the value holds a
    BigInt, with or without indentation. *)
Lemma serialize_throws_bigint (v : JValue) :
  forall gap stepback,
    throws (SerializeJSONProperty gap stepback v) = has_bigint v.
Proof.
  induction v as [| | b | n | n | s | items IH | props IH] using JValue_nested_ind;
    intros gap stepback; try reflexivity.
  - cbn [SerializeJSONProperty has_bigint].
    rewrite <- (existsb_Forall_ext
                  (fun x => throws (SerializeJSONProperty gap (stepback ++ gap) x))).
    + rewrite <- serialize_elements_throws.
      destruct (serialize_elements _ items); reflexivity.
    + eapply Forall_impl; [exact IH |]. intros x Hx. apply Hx.
  - cbn [SerializeJSONProperty has_bigint].
    rewrite <- (existsb_Forall_ext
                  (fun kv => throws (SerializeJSONProperty gap (stepback ++ gap) (snd kv)))).
    + rewrite <- (serialize_members_throws_eq _
                    (if String.eqb gap EmptyString then ":" else ": ")).
      destruct (serialize_members _ _ props); reflexivity.
    + eapply Forall_impl; [exact IH |]. intros kv Hkv. apply Hkv.
Qed.

Lemma queryBody_refine_throws (queryBody : gmap string JValue) :
  queryBody_refine queryBody
  = negb (existsb (fun kv => has_bigint (snd kv)) (map_to_list queryBody)).
Proof.
  unfold queryBody_refine, JSON_stringify.
  pose proof (serialize_throws_bigint (JObj (map_to_list queryBody))
                EmptyString EmptyString) as H.
  cbn [has_bigint] in H. rewrite <- H. cbn [SerializeJSONProperty].
  destruct (serialize_members _ _ _); reflexivity.
Qed.

(** The [refine] of [queryBody] accepts a query body exactly when none of
    its values holds a BigInt, at any depth: [undefined] values, nested
    objects and arrays never cause a rejection. *)
Theorem queryBody_schema_accepts_plain_json (queryBody : gmap string JValue) :
  queryBody_refine queryBody = true
  <-> forall k v, queryBody !! k = Some v -> has_bigint v = false.
Proof.
  rewrite queryBody_refine_throws, negb_true_iff. split.
  - intros Hnone k v Hk. destruct (has_bigint v) eqn:Hv; [| reflexivity].
    assert (Hex : existsb (fun kv => has_bigint (snd kv)) (map_to_list queryBody) = true).
    { apply existsb_exists. exists (k, v). split; [| exact Hv].
      apply list_elem_of_In, elem_of_map_to_list, Hk. }
    congruence.
  - intros Hall. destruct (existsb _ _) eqn:Hex; [| reflexivity].
    apply existsb_exists in Hex as ([k v] & Hin & Hv).
    apply list_elem_of_In, elem_of_map_to_list in Hin.
    cbn [snd] in Hv. rewrite (Hall k v Hin) in Hv. discriminate.
Qed.

(** ** Start-up *)

Section StartupProperties.

Variable is_url : string -> bool.
Variable zod_message : list string -> string.
Variable readFileSync : string -> Thrown + string.
Variable new_Client : ClientOptions -> Thrown + unit.
Variable connect : ClientOptions -> Thrown + unit.

Lemma length_lt_1 (s : string) :
  (String.length s <? 1)%nat = String.eqb s EmptyString.
Proof. destruct s; reflexivity. Qed.

Lemma safeParse_inr config data :
  ConfigSchema_safeParse is_url config = inr data ->
  trim (url config) <> EmptyString
  /\ is_url (trim (url config)) = true
  /\ credentials_refine config = true
  /\ data = {| url := trim (url config);
               apiKey := apiKey config;
               username := username config;
               password := password config;
               caCert := caCert config |}.
Proof.
  unfold ConfigSchema_safeParse, url_issues. cbn [url]. rewrite length_lt_1.
  change (credentials_refine _) with (credentials_refine config).
  destruct (String.eqb_spec (trim (url config)) EmptyString) as [He | Hne];
    [discriminate |].
  destruct (is_url (trim (url config))); [| discriminate].
  destruct (credentials_refine config); [| discriminate].
  cbn. intros [= <-]. auto.
Qed.


Lemma truthy_string_value o :
  truthy (string_value o) = true ->
  exists s, o = Some s /\ s <> EmptyString /\ ToString (string_value o) = s.
Proof.
  destruct o as [s |]; [| discriminate]. cbn. intros H.
  exists s. split; [reflexivity |]. split; [| reflexivity].
  apply negb_true_iff, String.eqb_neq in H. exact H.
Qed.

(** The authentication block on a configuration the schema accepted. *)
Lemma with_auth_accepted data clientOptions :
  credentials_refine data = true ->
  node (with_auth data clientOptions) = node clientOptions
  /\ tls (with_auth data clientOptions) = tls clientOptions
  /\ ((exists k, apiKey data = Some k /\ k <> EmptyString
                 /\ auth (with_auth data clientOptions) = Some (ApiKeyAuth k))
      \/ (truthy (string_value (apiKey data)) = false
          /\ exists u p, username data = Some u /\ password data = Some p
                         /\ u <> EmptyString /\ p <> EmptyString
                         /\ auth (with_auth data clientOptions)
                            = Some (BasicAuth u p))).
Proof.
  unfold credentials_refine, with_auth. intros Hcred.
  destruct (truthy (string_value (apiKey data))) eqn:Hkey.
  - destruct (truthy_string_value _ Hkey) as (k & Hk & Hne & Hs).
    cbn [node tls auth]. rewrite Hs. split; [reflexivity |]. split; [reflexivity |].
    left. eauto.
  - cbn [orb] in Hcred. rewrite Hcred. apply andb_true_iff in Hcred as [Hu Hp].
    destruct (truthy_string_value _ Hu) as (u & Hu' & Hune & Hus).
    destruct (truthy_string_value _ Hp) as (p & Hp' & Hpne & Hps).
    cbn [node tls auth]. rewrite Hus, Hps. split; [reflexivity |]. split; [reflexivity |].
    right. split; [reflexivity |]. exists u, p. auto.
Qed.

(** The certificate block, in one equation. *)
Lemma with_tls_run data clientOptions w :
  with_tls readFileSync data clientOptions w
  = if truthy (string_value (caCert data)) then
      match readFileSync (ToString (string_value (caCert data))) with
      | inr ca =>
          (inr {| node := node clientOptions; auth := auth clientOptions;
                  tls := Some ca |}, w)
      | inl e =>
          (inr clientOptions,
           {| cachedIndices := cachedIndices w;
              cacheTimestamp := cacheTimestamp w;
              events := (events w
                         ++ [ConsoleError ("Failed to read certificate file: "
                                             ++ thrown_message e)])%list |})
      end
    else (inr clientOptions, w).
Proof.
  unfold with_tls. destruct (truthy _); [| reflexivity].
  unfold try_catch, bind, lift. destruct (readFileSync _); reflexivity.
Qed.

Lemma create_run config w :
  createElasticsearchMcpServer is_url zod_message readFileSync new_Client config w
  = match ConfigSchema_safeParse is_url config with
    | inl issues => (inl (ErrorInstance "ZodError" (zod_message issues)), w)
    | inr data =>
        match with_tls readFileSync data
                (with_auth data {| node := url data; auth := None; tls := None |}) w
        with
        | (inl e, w1) => (inl e, w1)
        | (inr clientOptions, w1) =>
            match new_Client clientOptions with
            | inl e => (inl e, w1)
            | inr _ => (inr clientOptions, w1)
            end
        end
    end.
Proof.
  unfold createElasticsearchMcpServer, ConfigSchema_parse.
  unfold bind at 1. unfold lift at 1.
  destruct (ConfigSchema_safeParse is_url config) as [issues | data]; [reflexivity |].
  unfold bind at 1. destruct (with_tls _ _ _ _) as [[e | clientOptions] w1];
    [reflexivity |].
  unfold bind, lift, ret. destruct (new_Client clientOptions); reflexivity.
Qed.

(** A server is never created without credentials: its client connects
    to the trimmed URL and authenticates with the API key whenever one is
    given, whatever user name and password come with it, and with user
    name and password otherwise. *)
Theorem created_client_has_credentials config w options w' :
  createElasticsearchMcpServer is_url zod_message readFileSync new_Client config w
  = (inr options, w') ->
  node options = trim (url config)
  /\ ((exists k, apiKey config = Some k /\ k <> EmptyString
                 /\ auth options = Some (ApiKeyAuth k))
      \/ (truthy (string_value (apiKey config)) = false
          /\ exists u p, username config = Some u /\ password config = Some p
                         /\ u <> EmptyString /\ p <> EmptyString
                         /\ auth options = Some (BasicAuth u p))).
Proof.
  rewrite create_run.
  destruct (ConfigSchema_safeParse is_url config) as [issues | data] eqn:Hparse;
    [discriminate |].
  destruct (safeParse_inr _ _ Hparse) as (_ & _ & Hcred & ->).
  rewrite with_tls_run.
  destruct (with_auth_accepted
              {| url := trim (url config); apiKey := apiKey config;
                 username := username config; password := password config;
                 caCert := caCert config |}
              {| node := trim (url config); auth := None; tls := None |} Hcred)
    as (Hnode & _ & Hauth).
  cbn [url apiKey username password caCert node] in *.
  destruct (truthy (string_value (caCert config))).
  - destruct (readFileSync _); destruct (new_Client _); intros [= <- <-];
      cbn [node auth]; auto.
  - destruct (new_Client _); intros [= <- <-]. auto.
Qed.

(** The client gets a certificate exactly when a certificate path is
    configured and the file can be read. *)
Theorem tls_is_set_iff_certificate_read config w options w' ca :
  createElasticsearchMcpServer is_url zod_message readFileSync new_Client config w
  = (inr options, w') ->
  tls options = Some ca
  <-> exists path, caCert config = Some path /\ path <> EmptyString
                   /\ readFileSync path = inr ca.
Proof.
  rewrite create_run.
  destruct (ConfigSchema_safeParse is_url config) as [issues | data] eqn:Hparse;
    [discriminate |].
  destruct (safeParse_inr _ _ Hparse) as (_ & _ & Hcred & ->).
  rewrite with_tls_run.
  destruct (with_auth_accepted
              {| url := trim (url config); apiKey := apiKey config;
                 username := username config; password := password config;
                 caCert := caCert config |}
              {| node := trim (url config); auth := None; tls := None |} Hcred)
    as (_ & Htls & _).
  cbn [caCert tls] in *.
  destruct (truthy (string_value (caCert config))) eqn:Hca.
  - destruct (truthy_string_value _ Hca) as (path & Hpath & Hne & Hs). rewrite Hs.
    destruct (readFileSync path) as [e | ca'] eqn:Hread; destruct (new_Client _);
      intros [= <- <-].
    + rewrite Htls. split; [discriminate |].
      intros (path' & Hp' & _ & Hread'). congruence.
    + cbn [tls]. split.
      * intros [= <-]. eauto.
      * intros (path' & Hp' & _ & Hread'). congruence.
  - destruct (new_Client _); intros [= <- <-]. rewrite Htls. split; [discriminate |].
    intros (path & Hp & Hne & _). rewrite Hp in Hca. cbn in Hca.
    apply negb_false_iff, String.eqb_eq in Hca. contradiction.
Qed.

(** A certificate file that cannot be read does not stop the start-up:
    when the client accepts the options without a certificate, the server
    is created with them ([tls] unset), and the failure is written once to
    [console.error]. *)
Theorem unreadable_certificate_is_not_fatal config data w path e :
  ConfigSchema_safeParse is_url config = inr data ->
  caCert config = Some path -> path <> EmptyString ->
  readFileSync path = inl e ->
  new_Client (with_auth data {| node := trim (url config); auth := None; tls := None |})
  = inr tt ->
  createElasticsearchMcpServer is_url zod_message readFileSync new_Client config w
  = (inr (with_auth data {| node := trim (url config); auth := None; tls := None |}),
     {| cachedIndices := cachedIndices w;
        cacheTimestamp := cacheTimestamp w;
        events := (events w
                   ++ [ConsoleError ("Failed to read certificate file: "
                                       ++ thrown_message e)])%list |})
  /\ tls (with_auth data {| node := trim (url config); auth := None; tls := None |})
     = None.
Proof.
  intros Hparse Hpath Hne Hread Hclient. rewrite create_run, Hparse.
  destruct (safeParse_inr _ _ Hparse) as (_ & _ & Hcred & ->).
  rewrite with_tls_run. cbn [caCert url] in *.
  assert (Hca : truthy (string_value (caCert config)) = true).
  { rewrite Hpath. cbn. apply String.eqb_neq in Hne. rewrite Hne. reflexivity. }
  assert (Hs : ToString (string_value (caCert config)) = path)
    by (rewrite Hpath; reflexivity).
  rewrite Hca, Hs, Hread, Hclient. split; [reflexivity |].
  destruct (with_auth_accepted
              {| url := trim (url config); apiKey := apiKey config;
                 username := username config; password := password config;
                 caCert := caCert config |}
              {| node := trim (url config); auth := None; tls := None |} Hcred)
    as (_ & Htls & _).
  exact Htls.
Qed.

Lemma env_or_empty_truthy penv name :
  truthy (JStr (env_or_empty penv name))
  = negb (String.eqb (env_or_empty penv name) EmptyString).
Proof. reflexivity. Qed.

(** Without [ES_URL], or without [ES_API_KEY] and one of [ES_USERNAME] and
    [ES_PASSWORD], in the environment (unset or empty), [main] ends the
    process with status 1 after one line on [console.error]; the transport
    is not asked to connect. *)
Theorem main_exits_on_missing_configuration penv w :
  env_or_empty penv "ES_URL" = EmptyString
  \/ (env_or_empty penv "ES_API_KEY" = EmptyString
      /\ (env_or_empty penv "ES_USERNAME" = EmptyString
          \/ env_or_empty penv "ES_PASSWORD" = EmptyString)) ->
  exists issues,
    issues <> []
    /\ main is_url zod_message readFileSync new_Client connect penv w
       = (inr (Exited 1),
          {| cachedIndices := cachedIndices w;
             cacheTimestamp := cacheTimestamp w;
             events := (events w
                        ++ [ConsoleError ("Server error: " ++ zod_message issues)])%list |}).
Proof.
  intros Hmissing.
  assert (Hparse : exists issues,
             issues <> []
             /\ ConfigSchema_safeParse is_url (config_of_env penv) = inl issues).
  { destruct (ConfigSchema_safeParse is_url (config_of_env penv)) as [issues | data]
      eqn:Hparse.
    - exists issues. split; [| reflexivity].
      intros ->. unfold ConfigSchema_safeParse in Hparse.
      destruct (_ ++ _)%list; discriminate.
    - exfalso. destruct (safeParse_inr _ _ Hparse) as (Hne & _ & Hcred & _).
      cbn [config_of_env url] in Hne. unfold credentials_refine in Hcred.
      cbn [config_of_env apiKey username password string_value] in Hcred.
      rewrite !env_or_empty_truthy in Hcred.
      destruct Hmissing as [Hurl | (Hkey & [Hu | Hp])].
      + rewrite Hurl in Hne. apply Hne. reflexivity.
      + rewrite Hkey, Hu in Hcred. discriminate.
      + rewrite Hkey, Hp in Hcred. cbn in Hcred.
        rewrite andb_false_r in Hcred. discriminate. }
  destruct Hparse as (issues & Hne & Hparse). exists issues. split; [exact Hne |].
  unfold main, try_catch. unfold bind at 1. rewrite create_run, Hparse. reflexivity.
Qed.

(** With a URL and an API key in the environment, no certificate path, a
    client that accepts the options and a transport that connects, [main]
    serves: the client is built for the trimmed URL with the API key, and
    nothing is written to [console.error]. *)
Theorem main_serves_with_api_key penv w k :
  trim (env_or_empty penv "ES_URL") <> EmptyString ->
  is_url (trim (env_or_empty penv "ES_URL")) = true ->
  penv !! "ES_API_KEY" = Some k -> k <> EmptyString ->
  penv !! "ES_CA_CERT" = None ->
  new_Client {| node := trim (env_or_empty penv "ES_URL");
                auth := Some (ApiKeyAuth k);
                tls := None |} = inr tt ->
  (forall options, connect options = inr tt) ->
  main is_url zod_message readFileSync new_Client connect penv w
  = (inr (Serving {| node := trim (env_or_empty penv "ES_URL");
                     auth := Some (ApiKeyAuth k);
                     tls := None |}), w).
Proof.
  intros Hne Hurl Hkey Hkne Hca Hclient Hconnect.
  assert (Hk : env_or_empty penv "ES_API_KEY" = k).
  { unfold env_or_empty. rewrite Hkey. cbn [string_value]. unfold js_or.
    cbn [truthy]. apply String.eqb_neq in Hkne. rewrite Hkne. reflexivity. }
  assert (Hc : env_or_empty penv "ES_CA_CERT" = EmptyString).
  { unfold env_or_empty. rewrite Hca. reflexivity. }
  unfold main, try_catch. unfold bind at 1. rewrite create_run.
  unfold ConfigSchema_safeParse, url_issues, credentials_refine.
  cbn [config_of_env url apiKey username password caCert string_value].
  rewrite length_lt_1, Hk. apply String.eqb_neq in Hne, Hkne.
  cbn [truthy]. rewrite Hne, Hurl, Hkne. cbn [negb orb app].
  rewrite with_tls_run. unfold with_auth.
  cbn [url apiKey caCert string_value truthy ToString node tls].
  rewrite Hkne, Hc. cbn [negb String.eqb]. rewrite Hclient.
  unfold bind, lift. rewrite Hconnect. reflexivity.
Qed.


End StartupProperties.

Lemma created_client_has_credentials_witness :
  createElasticsearchMcpServer Sample2.is_http Sample2.join_issues Sample2.one_file Sample2.http_only
    Sample2.with_key initial_world
  = (inr {| node := "https://localhost:9200";
            auth := Some (ApiKeyAuth "k1");
            tls := Some "PEM" |}, initial_world)
  /\ node {| node := "https://localhost:9200";
             auth := Some (ApiKeyAuth "k1");
             tls := Some "PEM" |}
     = trim (url Sample2.with_key)
  /\ ((exists k, apiKey Sample2.with_key = Some k /\ k <> EmptyString
                 /\ auth {| node := "https://localhost:9200";
                            auth := Some (ApiKeyAuth "k1");
                            tls := Some "PEM" |} = Some (ApiKeyAuth k))
      \/ (truthy (string_value (apiKey Sample2.with_key)) = false
          /\ exists u p, username Sample2.with_key = Some u
                         /\ password Sample2.with_key = Some p
                         /\ u <> EmptyString /\ p <> EmptyString
                         /\ auth {| node := "https://localhost:9200";
                                    auth := Some (ApiKeyAuth "k1");
                                    tls := Some "PEM" |} = Some (BasicAuth u p))).
Proof.
  assert (H : createElasticsearchMcpServer Sample2.is_http Sample2.join_issues
                Sample2.one_file Sample2.http_only Sample2.with_key initial_world
              = (inr {| node := "https://localhost:9200";
                        auth := Some (ApiKeyAuth "k1");
                        tls := Some "PEM" |}, initial_world))
    by (vm_compute; reflexivity).
  split; [exact H |].
  exact (created_client_has_credentials Sample2.is_http Sample2.join_issues
           Sample2.one_file Sample2.http_only Sample2.with_key initial_world _ _ H).
Defined.

Lemma tls_is_set_iff_certificate_read_witness :
  createElasticsearchMcpServer Sample2.is_http Sample2.join_issues Sample2.one_file Sample2.http_only
    Sample2.with_key initial_world
  = (inr {| node := "https://localhost:9200";
            auth := Some (ApiKeyAuth "k1");
            tls := Some "PEM" |}, initial_world)
  /\ (tls {| node := "https://localhost:9200";
             auth := Some (ApiKeyAuth "k1");
             tls := Some "PEM" |} = Some "PEM"
      <-> exists path, caCert Sample2.with_key = Some path /\ path <> EmptyString
                       /\ Sample2.one_file path = inr "PEM").
Proof.
  assert (H : createElasticsearchMcpServer Sample2.is_http Sample2.join_issues
                Sample2.one_file Sample2.http_only Sample2.with_key initial_world
              = (inr {| node := "https://localhost:9200";
                        auth := Some (ApiKeyAuth "k1");
                        tls := Some "PEM" |}, initial_world))
    by (vm_compute; reflexivity).
  split; [exact H |].
  exact (tls_is_set_iff_certificate_read Sample2.is_http Sample2.join_issues
           Sample2.one_file Sample2.http_only Sample2.with_key initial_world _ _ "PEM" H).
Defined.

Lemma unreadable_certificate_is_not_fatal_witness :
  ConfigSchema_safeParse Sample2.is_http Sample2.with_lost_certificate
  = inr Sample2.with_lost_certificate
  /\ caCert Sample2.with_lost_certificate = Some "/tmp/gone.pem"
  /\ "/tmp/gone.pem" <> EmptyString
  /\ Sample2.one_file "/tmp/gone.pem" = inl Sample2.enoent
  /\ Sample2.http_only
       (with_auth Sample2.with_lost_certificate
          {| node := trim (url Sample2.with_lost_certificate);
             auth := None; tls := None |}) = inr tt
  /\ createElasticsearchMcpServer Sample2.is_http Sample2.join_issues
       Sample2.one_file Sample2.http_only Sample2.with_lost_certificate initial_world
     = (inr {| node := "https://localhost:9200";
               auth := Some (BasicAuth "elastic" "changeme");
               tls := None |},
        {| cachedIndices := None;
           cacheTimestamp := None;
           events := [ConsoleError
             "Failed to read certificate file: ENOENT: no such file or directory"] |}).
Proof.
  assert (H1 : ConfigSchema_safeParse Sample2.is_http Sample2.with_lost_certificate
               = inr Sample2.with_lost_certificate) by reflexivity.
  assert (H2 : caCert Sample2.with_lost_certificate = Some "/tmp/gone.pem")
    by reflexivity.
  assert (H3 : "/tmp/gone.pem" <> EmptyString) by discriminate.
  assert (H4 : Sample2.one_file "/tmp/gone.pem" = inl Sample2.enoent) by reflexivity.
  assert (H5 : Sample2.http_only
                 (with_auth Sample2.with_lost_certificate
                    {| node := trim (url Sample2.with_lost_certificate);
                       auth := None; tls := None |}) = inr tt) by reflexivity.
  split; [exact H1 | split; [exact H2 | split; [exact H3 | split; [exact H4 |
    split; [exact H5 |]]]]].
  exact (proj1 (unreadable_certificate_is_not_fatal Sample2.is_http
                  Sample2.join_issues Sample2.one_file Sample2.http_only
                  Sample2.with_lost_certificate
                  _ initial_world _ _ H1 H2 H3 H4 H5)).
Defined.

Lemma main_exits_on_missing_configuration_witness :
  let penv : gmap string string :=
    {["ES_URL" := "https://localhost:9200"; "ES_USERNAME" := "elastic"]} in
  (env_or_empty penv "ES_URL" = EmptyString
   \/ (env_or_empty penv "ES_API_KEY" = EmptyString
       /\ (env_or_empty penv "ES_USERNAME" = EmptyString
           \/ env_or_empty penv "ES_PASSWORD" = EmptyString)))
  /\ exists issues,
       issues <> []
       /\ main Sample2.is_http Sample2.join_issues Sample2.one_file Sample2.http_only Sample2.connects
            penv initial_world
          = (inr (Exited 1),
             {| cachedIndices := None;
                cacheTimestamp := None;
                events := ([] ++ [ConsoleError ("Server error: "
                                                  ++ Sample2.join_issues issues)])%list |}).
Proof.
  cbv zeta.
  assert (H : env_or_empty
                {["ES_URL" := "https://localhost:9200"; "ES_USERNAME" := "elastic"]}
                "ES_URL" = EmptyString
              \/ (env_or_empty
                    {["ES_URL" := "https://localhost:9200"; "ES_USERNAME" := "elastic"]}
                    "ES_API_KEY" = EmptyString
                  /\ (env_or_empty
                        {["ES_URL" := "https://localhost:9200"; "ES_USERNAME" := "elastic"]}
                        "ES_USERNAME" = EmptyString
                      \/ env_or_empty
                           {["ES_URL" := "https://localhost:9200"; "ES_USERNAME" := "elastic"]}
                           "ES_PASSWORD" = EmptyString)))
    by (right; split; [vm_compute; reflexivity | right; vm_compute; reflexivity]).
  split; [exact H |].
  exact (main_exits_on_missing_configuration Sample2.is_http Sample2.join_issues
           Sample2.one_file Sample2.http_only Sample2.connects _ initial_world H).
Defined.

Lemma main_serves_with_api_key_witness :
  let penv : gmap string string :=
    {["ES_URL" := " https://localhost:9200"; "ES_API_KEY" := "k1"]} in
  trim (env_or_empty penv "ES_URL") <> EmptyString
  /\ Sample2.is_http (trim (env_or_empty penv "ES_URL")) = true
  /\ penv !! "ES_API_KEY" = Some "k1"
  /\ "k1" <> EmptyString
  /\ penv !! "ES_CA_CERT" = None
  /\ Sample2.http_only {| node := trim (env_or_empty penv "ES_URL");
                          auth := Some (ApiKeyAuth "k1");
                          tls := None |} = inr tt
  /\ (forall options, Sample2.connects options = inr tt)
  /\ main Sample2.is_http Sample2.join_issues Sample2.one_file Sample2.http_only Sample2.connects
       penv initial_world
     = (inr (Serving {| node := trim (env_or_empty penv "ES_URL");
                        auth := Some (ApiKeyAuth "k1");
                        tls := None |}), initial_world).
Proof.
  cbv zeta.
  assert (H1 : trim (env_or_empty
                       {["ES_URL" := " https://localhost:9200"; "ES_API_KEY" := "k1"]}
                       "ES_URL") <> EmptyString)
    by (vm_compute; discriminate).
  assert (H2 : Sample2.is_http
                 (trim (env_or_empty
                          {["ES_URL" := " https://localhost:9200"; "ES_API_KEY" := "k1"]}
                          "ES_URL")) = true)
    by (vm_compute; reflexivity).
  assert (H3 : ({["ES_URL" := " https://localhost:9200"; "ES_API_KEY" := "k1"]}
                  : gmap string string) !! "ES_API_KEY" = Some "k1")
    by (vm_compute; reflexivity).
  assert (H4 : "k1" <> EmptyString) by discriminate.
  assert (H5 : ({["ES_URL" := " https://localhost:9200"; "ES_API_KEY" := "k1"]}
                  : gmap string string) !! "ES_CA_CERT" = None)
    by (vm_compute; reflexivity).
  assert (H6 : forall options, Sample2.connects options = inr tt)
    by (intros options; reflexivity).
  assert (H7 : Sample2.http_only
                 {| node := trim (env_or_empty
                      {["ES_URL" := " https://localhost:9200"; "ES_API_KEY" := "k1"]}
                      "ES_URL");
                    auth := Some (ApiKeyAuth "k1");
                    tls := None |} = inr tt)
    by (vm_compute; reflexivity).
  split; [exact H1 | split; [exact H2 | split; [exact H3 | split; [exact H4 |
    split; [exact H5 | split; [exact H7 | split; [exact H6 |]]]]]]].
  exact (main_serves_with_api_key Sample2.is_http Sample2.join_issues
           Sample2.one_file Sample2.http_only Sample2.connects _ initial_world "k1"
           H1 H2 H3 H4 H5 H7 H6).
Defined.

Lemma queryBody_schema_accepts_plain_json_witness :
  queryBody_refine ({["size" := JNum "10"; "query" := JObj [("match_all", JObj [])]]}
                      : gmap string JValue) = true
  /\ forall k v,
       ({["size" := JNum "10"; "query" := JObj [("match_all", JObj [])]]}
          : gmap string JValue) !! k = Some v ->
       has_bigint v = false.
Proof.
  assert (H : queryBody_refine
                ({["size" := JNum "10"; "query" := JObj [("match_all", JObj [])]]}
                   : gmap string JValue) = true) by (vm_compute; reflexivity).
  split; [exact H |].
  exact (proj1 (queryBody_schema_accepts_plain_json _) H).
Defined.


